(** * socket.io-go: session recovery, namespaces, acknowledgements and the
      Engine.IO request front, as a shallow embedding.

    Each Go package that is verified here gets a module of the same name:
    [time] and [parser] hold the few library types the code touches,
    [adapter] is [adapter/adapter_session_aware.go], [sio] is the Socket.IO
    server ([Server.Of], [serverConn.connect], [serverSocket.sendDataPacket])
    and [eio] is the Engine.IO server ([Server.ServeHTTP],
    [Server.maybeUpgrade]).

    Conventions.
    - A [time.Time] is an integer instant and a [time.Duration] an integer
      span, both in nanoseconds; [time.Now()] is an explicit argument [now].
    - A Go [map] is a [gmap], a [mapset.Set] a [gset], a slice a [list].
    - A [uint64] is a [Z] with its wrap-around written out.
    - A function that can panic returns a [result]. *)

From Stdlib Require Import ZArith Ascii String.
From stdpp Require Import gmap strings list.

(** ** Values of type [interface{}] *)

(** The dynamic values that travel in a payload.  [AnyFunc] stands for a Go
    function value (its argument identifies the closure); [AnyNil] is the nil
    interface. *)
Inductive any : Type :=
| AnyNil
| AnyBool (b : bool)
| AnyInt (z : Z)
| AnyString (s : string)
| AnyFunc (f : nat).

#[global] Instance any_eq_dec : EqDecision any.
Proof. solve_decision. Defined.

(** Outcome of a Go call that may panic. *)
Inductive result (A : Type) : Type :=
| Ok (a : A)
| Panic (msg : string).
Arguments Ok {A} a.
Arguments Panic {A} msg.

(** ** Package [time] *)

Module time.

Definition Time : Type := Z.
Definition Duration : Type := Z.

Definition Second : Duration := 1000000000%Z.

Definition Add (t : Time) (d : Duration) : Time := (t + d)%Z.

(** [t.Before(u)]: the instant [t] is strictly earlier than [u]. *)
Definition Before (t u : Time) : bool := bool_decide (t < u)%Z.

(** [t.After(u)]: the instant [t] is strictly later than [u]. *)
Definition After (t u : Time) : bool := bool_decide (u < t)%Z.

End time.

(** ** Package [parser]: the Socket.IO packet header *)

Module parser.

Inductive PacketType : Type :=
| PacketTypeConnect
| PacketTypeDisconnect
| PacketTypeEvent
| PacketTypeAck
| PacketTypeConnectError
| PacketTypeBinaryEvent
| PacketTypeBinaryAck.

#[global] Instance PacketType_eq_dec : EqDecision PacketType.
Proof. solve_decision. Defined.

(** [ID] is the pointer field [ID *uint64]: [None] is the nil pointer. *)
Record PacketHeader : Type := mkHeader {
  Typ : PacketType;
  Namespace : string;
  ID : option Z
}.

#[global] Instance PacketHeader_eq_dec : EqDecision PacketHeader.
Proof. solve_decision. Defined.

End parser.

(** ** Package [adapter]: the session-aware adapter *)

Module adapter.

Abbreviation Room := string (only parsing).
Abbreviation SocketID := string (only parsing).
Abbreviation PrivateSessionID := string (only parsing).

(** The two sets of [BroadcastOptions] that the adapter reads. *)
Module BroadcastOptions.
Record t : Type := mk {
  Rooms : gset Room;
  Except : gset Room
}.
End BroadcastOptions.

Definition NewBroadcastOptions : BroadcastOptions.t :=
  BroadcastOptions.mk ∅ ∅.

(** [Header] is a pointer field: [None] is nil. *)
Module PersistedPacket.
Record t : Type := mk {
  ID : string;
  EmittedAt : time.Time;
  Opts : BroadcastOptions.t;
  Header : option parser.PacketHeader;
  Data : list any
}.
End PersistedPacket.

Module SessionToPersist.
Record t : Type := mk {
  SID : SocketID;
  PID : PrivateSessionID;
  Rooms : list Room;
  MissedPackets : list PersistedPacket.t
}.
End SessionToPersist.

Module sessionWithTimestamp.
Record t : Type := mk {
  SessionToPersist : SessionToPersist.t;
  DisconnectedAt : time.Time
}.
End sessionWithTimestamp.

(** [func (p *PersistedPacket) HasExpired(maxDisconnectDuration)] *)
Definition HasExpired (now : time.Time) (maxDisconnectDuration : time.Duration)
    (p : PersistedPacket.t) : bool :=
  time.Before now (time.Add (PersistedPacket.EmittedAt p) maxDisconnectDuration).

(** [func (s *sessionWithTimestamp) hasExpired(maxDisconnectDuration)] *)
Definition hasExpired (now : time.Time) (maxDisconnectDuration : time.Duration)
    (s : sessionWithTimestamp.t) : bool :=
  time.After now (time.Add (sessionWithTimestamp.DisconnectedAt s) maxDisconnectDuration).

(** [func shouldIncludePacket(sessionRooms []Room, opts *BroadcastOptions)].
    Each of the two loops stops at the first room it finds in the set. *)
Fixpoint containsAny (set : gset Room) (sessionRooms : list Room) : bool :=
  match sessionRooms with
  | [] => false
  | sessionRoom :: rest =>
      if bool_decide (sessionRoom ∈ set) then true else containsAny set rest
  end.

Definition shouldIncludePacket (sessionRooms : list Room)
    (opts : BroadcastOptions.t) : bool :=
  let included := containsAny (BroadcastOptions.Rooms opts) sessionRooms in
  let included := bool_decide (size (BroadcastOptions.Rooms opts) = 0) || included in
  let notExcluded := negb (containsAny (BroadcastOptions.Except opts) sessionRooms) in
  included && notExcluded.

(** The sweep of [cleaner] over the packet buffer:
    [for i := len(a.packets) - 1; i >= 0; i--], with [n = i + 1]. *)
Fixpoint cleanPackets (now : time.Time) (d : time.Duration)
    (packets : list PersistedPacket.t) (n : nat) : list PersistedPacket.t :=
  match n with
  | O => packets
  | S i =>
      match packets !! i with
      | Some packet =>
          if HasExpired now d packet
          then take i packets ++ drop (S i) packets
          else cleanPackets now d packets i
      | None => packets
      end
  end.

(** [for i, packet := range a.packets { if packet.ID == offset ... break }]:
    the index of the first packet whose ID is [offset], counted from [i]. *)
Fixpoint findOffset (offset : string) (packets : list PersistedPacket.t)
    (i : nat) : option nat :=
  match packets with
  | [] => None
  | packet :: rest =>
      if bool_decide (PersistedPacket.ID packet = offset) then Some i
      else findOffset offset rest (S i)
  end.

(** [for i := index + 1; i < len(a.packets); i++]: the packets after
    [index] that the session would have received, in buffer order. *)
Fixpoint collectMissed (sessionRooms : list Room)
    (packets : list PersistedPacket.t) : list PersistedPacket.t :=
  match packets with
  | [] => []
  | packet :: rest =>
      if shouldIncludePacket sessionRooms (PersistedPacket.Opts packet)
      then packet :: collectMissed sessionRooms rest
      else collectMissed sessionRooms rest
  end.

Section WithYeast.

(** [github.com/tomruk/yeast] is an external library: a generator state
    and the call [Yeast()] that returns the next ID. *)
Variable Yeaster : Type.
Variable Yeast : Yeaster → string * Yeaster.

(** One call received by the embedded [inMemoryAdapter.Broadcast]. *)
Definition broadcastCall : Type :=
  (parser.PacketHeader * list any * BroadcastOptions.t)%type.

(** [inMemoryAdapter] is kept as the log of the broadcasts handed to it. *)
Record sessionAwareAdapter : Type := mkAdapter {
  inMemoryAdapter : list broadcastCall;
  maxDisconnectDuration : time.Duration;
  yeaster : Yeaster;
  sessions : gmap PrivateSessionID sessionWithTimestamp.t;
  packets : list PersistedPacket.t
}.

Definition setSessions (a : sessionAwareAdapter)
    (m : gmap PrivateSessionID sessionWithTimestamp.t) : sessionAwareAdapter :=
  mkAdapter (inMemoryAdapter a) (maxDisconnectDuration a) (yeaster a) m (packets a).

(** The adapter returned by [NewSessionAwareAdapterCreator(d)]. *)
Definition NewSessionAwareAdapter (d : time.Duration) (y : Yeaster)
    : sessionAwareAdapter :=
  mkAdapter [] d y ∅ [].

(** One pass of the body of [cleaner] (after the sleep), at time [now]. *)
Definition cleaner (now : time.Time) (a : sessionAwareAdapter)
    : sessionAwareAdapter :=
  let d := maxDisconnectDuration a in
  let kept :=
    filter (λ kv : PrivateSessionID * sessionWithTimestamp.t,
              hasExpired now d kv.2 = false) (sessions a) in
  mkAdapter (inMemoryAdapter a) d (yeaster a) kept
            (cleanPackets now d (packets a) (length (packets a))).

(** [PersistSession(session)] at time [now]. *)
Definition PersistSession (now : time.Time) (session : SessionToPersist.t)
    (a : sessionAwareAdapter) : sessionAwareAdapter :=
  let sessionWithTS := sessionWithTimestamp.mk session now in
  setSessions a (<[SessionToPersist.PID session := sessionWithTS]> (sessions a)).

(** [RestoreSession(pid, offset)] at time [now]: the returned pair is
    [(session, ok)] folded into an option, with the adapter afterwards.
    The returned pointer is [&sessionWithTS.SessionToPersist], so the
    assignment to [session.MissedPackets] also lands in the stored
    session. *)
Definition RestoreSession (now : time.Time) (pid : PrivateSessionID)
    (offset : string) (a : sessionAwareAdapter)
    : option SessionToPersist.t * sessionAwareAdapter :=
  match sessions a !! pid with
  | None => (None, a)
  | Some sessionWithTS =>
      if hasExpired now (maxDisconnectDuration a) sessionWithTS
      then (None, setSessions a (delete pid (sessions a)))
      else
        match findOffset offset (packets a) 0 with
        | None => (None, a)
        | Some index =>
            let stored := sessionWithTimestamp.SessionToPersist sessionWithTS in
            let missedPackets :=
              collectMissed (SessionToPersist.Rooms stored)
                            (drop (S index) (packets a)) in
            let session :=
              SessionToPersist.mk (SessionToPersist.SID stored)
                                  (SessionToPersist.PID stored)
                                  (SessionToPersist.Rooms stored)
                                  missedPackets in
            let sessionWithTS' :=
              sessionWithTimestamp.mk session
                (sessionWithTimestamp.DisconnectedAt sessionWithTS) in
            (Some session, setSessions a (<[pid := sessionWithTS']> (sessions a)))
        end
  end.

(** [Broadcast(header, v, opts)] at time [now]. *)
Definition Broadcast (now : time.Time) (header : parser.PacketHeader)
    (v : list any) (opts : BroadcastOptions.t) (a : sessionAwareAdapter)
    : sessionAwareAdapter :=
  let isEventPacket := bool_decide (parser.Typ header = parser.PacketTypeEvent) in
  let withoutAcknowledgement := bool_decide (parser.ID header = None) in
  if isEventPacket && withoutAcknowledgement then
    let '(id, y) := Yeast (yeaster a) in
    let v := v ++ [AnyString id] in
    let packet := PersistedPacket.mk id now opts None v in
    mkAdapter (inMemoryAdapter a ++ [(header, v, opts)])
              (maxDisconnectDuration a) y (sessions a)
              (packets a ++ [packet])
  else
    mkAdapter (inMemoryAdapter a ++ [(header, v, opts)])
              (maxDisconnectDuration a) (yeaster a) (sessions a) (packets a).

End WithYeast.

Arguments mkAdapter {Yeaster}.
Arguments inMemoryAdapter {Yeaster}.
Arguments maxDisconnectDuration {Yeaster}.
Arguments yeaster {Yeaster}.
Arguments sessions {Yeaster}.
Arguments packets {Yeaster}.
Arguments setSessions {Yeaster}.
Arguments NewSessionAwareAdapter {Yeaster}.
Arguments cleaner {Yeaster}.
Arguments PersistSession {Yeaster}.
Arguments RestoreSession {Yeaster}.
Arguments Broadcast {Yeaster}.

End adapter.

(** ** Package [sio]: namespaces, connection handling, server sockets *)

Module sio.

(** What is handed to [parser.Encode] next to the header: a
    [*connectError], a [*sidInfo] or the value slice [&v]. *)
Inductive payload : Type :=
| PayloadConnectError (Message : string)
| PayloadSidInfo (SID : string)
| PayloadValues (v : list any).

(** [reflect.Kind], as far as [any] has values. *)
Inductive Kind : Type := KindBool | KindInt | KindString | KindFunc.

#[global] Instance Kind_eq_dec : EqDecision Kind.
Proof. solve_decision. Defined.

(** [reflect.TypeOf(f)]: the nil interface has no type ([None]). *)
Definition TypeOf (f : any) : option Kind :=
  match f with
  | AnyNil => None
  | AnyBool _ => Some KindBool
  | AnyInt _ => Some KindInt
  | AnyString _ => Some KindString
  | AnyFunc _ => Some KindFunc
  end.

(** [newAckHandler(f)] wraps the callback. *)
Record ackHandler : Type := newAckHandler { rv : any }.

(** The fields of [serverSocket] that [sendDataPacket] reads and writes.
    [nsp] is the name of the owning namespace ([s.nsp.Name()]); [acks] is
    [None] for the nil map. *)
Record serverSocket : Type := mkServerSocket {
  id : string;
  nsp : string;
  acks : option (gmap Z ackHandler);
  ackID : Z
}.

(** [newServerSocket]: [generated] is the outcome of
    [eio.GenerateBase64ID]; the struct literal sets neither [acks] nor
    [ackID], which are left at their zero values. *)
Definition newServerSocket (generated : option string) (nspName : string)
    : option serverSocket :=
  match generated with
  | None => None
  | Some id => Some (mkServerSocket id nspName None 0)
  end.

(** Modelled from the spec: [IsEventReservedForServer], whose definition is
    not among the sources; section 4.6 lists the reserved names. *)
Definition IsEventReservedForServer (eventName : string) : bool :=
  bool_decide (eventName ∈ ["connect"; "connect_error"; "disconnect";
                            "disconnecting"; "newListener"; "removeListener"]).

Definition uint64_modulus : Z := 2 ^ 64.

(** A namespace object, as far as the code below reads it: [nsp.Name()]. *)
Record Namespace : Type := mkNamespace {
  Name : string
}.

(** Modelled from the spec: [namespaceStore.GetOrCreate], whose definition
    is not among the sources.  Section 3: a namespace is created lazily on
    first reference; an existing one is returned as it is. *)
Definition GetOrCreate (namespace : string) (store : gmap string Namespace)
    : Namespace * gmap string Namespace :=
  match store !! namespace with
  | Some n => (n, store)
  | None => let n := mkNamespace namespace in (n, <[namespace := n]> store)
  end.

Record Server : Type := mkServer {
  namespaces : gmap string Namespace;
  acceptAnyNamespace : bool
}.

(** [func (s *Server) Of(namespace string) *Namespace] *)
Definition Of (namespace : string) (s : Server) : Namespace * Server :=
  let namespace :=
    match namespace with
    | String c _ =>
        if bool_decide (c ≠ "/"%char) then String "/" namespace else namespace
    | EmptyString => namespace
    end in
  let '(n, store) := GetOrCreate namespace (namespaces s) in
  (n, mkServer store (acceptAnyNamespace s)).

(** The per-connection stores of [serverConn] and the buffers it handed to
    [sendBuffers], oldest first. *)
Record serverConn : Type := mkServerConn {
  conn_id : string;
  sockets : gmap string serverSocket;
  nsps : gmap string Namespace;
  outbox : list (list string)
}.

(** [func (c *serverConn) sendBuffers(buffers ...[]byte)] *)
Definition sendBuffers (buffers : list string) (c : serverConn) : serverConn :=
  match buffers with
  | [] => c
  | _ :: _ => mkServerConn (conn_id c) (sockets c) (nsps c) (outbox c ++ [buffers])
  end.

Section WithParser.

(** [parser.Parser.Encode]: [None] is an encoding error. *)
Variable Encode : parser.PacketHeader → payload → option (list string).

(** [Namespace.add(c, auth)] is not among the sources: it runs the
    middleware chain and yields either the new socket or the error of a
    middleware. *)
Variable add : Namespace → string → option string → serverSocket + string.

(** [func (s *serverSocket) sendDataPacket(typ, eventName, v ...)].
    The result is the socket afterwards and the buffers given to
    [s.conn.sendBuffers] (none when encoding fails and [onError] runs). *)
Definition encodeAndSend (header : parser.PacketHeader) (v : list any)
    (s : serverSocket) : result (serverSocket * list string) :=
  match Encode header (PayloadValues v) with
  | None => Ok (s, [])
  | Some buffers => Ok (s, buffers)
  end.

Definition sendDataPacket (typ : parser.PacketType) (eventName : string)
    (v : list any) (s : serverSocket) : result (serverSocket * list string) :=
  let header := parser.mkHeader typ (nsp s) None in
  if IsEventReservedForServer eventName
  then Panic "sio: Emit: attempted to emit a reserved event"
  else
    let v := AnyString eventName :: v in
    match last v with
    | None => encodeAndSend header v s
    | Some f =>
        match TypeOf f with
        | None => Panic "invalid memory address or nil pointer dereference"
        | Some KindFunc =>
            let ackHandler := newAckHandler f in
            match acks s with
            | None => Panic "assignment to entry in nil map"
            | Some m =>
                let id := ackID s in
                let s' := mkServerSocket (sio.id s) (nsp s)
                            (Some (<[id := ackHandler]> m))
                            ((ackID s + 1) mod uint64_modulus) in
                let header := parser.mkHeader typ (nsp s) (Some id) in
                encodeAndSend header (take (length v - 1) v) s'
            end
        | Some _ => encodeAndSend header v s
        end
    end.

(** [func (s *serverSocket) Emit(eventName, v ...)] *)
Definition Emit (eventName : string) (v : list any) (s : serverSocket)
    : result (serverSocket * list string) :=
  sendDataPacket parser.PacketTypeEvent eventName v s.

(** [func (c *serverConn) connect(header, decode)].  [decoded] is the
    outcome of [decode(at)]: [None] for an error, else the auth values.
    The user callback [onSocketHandler], called last, has no part in the
    state kept here. *)
Definition connect (header : parser.PacketHeader) (decoded : option (list string))
    (srv : Server) (c : serverConn) : result (Server * serverConn) :=
  match decoded with
  | None => Panic "decode"
  | Some values =>
      let auth := match values with [rmp] => Some rmp | _ => None end in
      let '(nsp, srv) := Of (parser.Namespace header) srv in
      match add nsp (conn_id c) auth with
      | inr err =>
          let header := parser.mkHeader parser.PacketTypeConnectError (Name nsp) None in
          match Encode header (PayloadConnectError err) with
          | None => Panic "encode"
          | Some buffers => Ok (srv, sendBuffers buffers c)
          end
      | inl socket =>
          let c := mkServerConn (conn_id c) (<[id socket := socket]> (sockets c))
                                (<[Name nsp := nsp]> (nsps c)) (outbox c) in
          let header := parser.mkHeader parser.PacketTypeConnect (sio.nsp socket) None in
          match Encode header (PayloadSidInfo (id socket)) with
          | None => Ok (srv, c)
          | Some buffers => Ok (srv, sendBuffers buffers c)
          end
      end
  end.

End WithParser.

(** *** [serverSocketStore]

    The map of the store; [Put] is the method [Set]. *)

Module serverSocketStore.

Definition Get (sid : string) (s : gmap string serverSocket) : option serverSocket :=
  s !! sid.

(** The slice is filled in the iteration order of the map, which Go leaves
    unspecified; here it is the order of [map_to_list]. *)
Definition GetAll (s : gmap string serverSocket) : list serverSocket :=
  (map_to_list s).*2.

Definition Put (ss : serverSocket) (s : gmap string serverSocket)
    : gmap string serverSocket :=
  <[id ss := ss]> s.

Definition Remove (sid : string) (s : gmap string serverSocket)
    : gmap string serverSocket :=
  delete sid s.

End serverSocketStore.

(** *** Inbound packets on a server socket *)

(** The errors a socket reports to [onError] or returns. *)
Inductive socketError : Type :=
| ErrNilID
| ErrAckNotFound (id : Z)
| ErrDecode
| ErrArguments
| ErrCall (msg : string)
| ErrEncode
| ErrInvalidPacketType (typ : parser.PacketType).

(** What a socket does to the rest of the server, in order:
    [s.conn.sendBuffers], [s.onError], the call of an ack callback, the
    reserved events of [emitReserved], [s.nsp.remove(s)],
    [adapter.DeleteAll(s.ID())] and [s.conn.sockets.Remove(s.ID())]. *)
Inductive effect : Type :=
| Sent (buffers : list string)
| OnError (err : socketError)
| AckCalled (ack : ackHandler) (values : list any)
| EmitReserved (eventName reason : string)
| NspRemove (sid : string)
| LeaveAll (sid : string)
| ConnRemove (sid : string).

(** An event handler: the types of its arguments and the user function
    behind [handler.Call], which returns values or an error. *)
Record eventHandler : Type := mkEventHandler {
  inputArgs : list Kind;
  Call : list any → list any + string
}.

(** The invariant of the ack table: every outstanding ID is below the
    counter. *)
Definition acksBelowCounter (s : serverSocket) : Prop :=
  (0 ≤ ackID s)%Z ∧
  ∀ m k, acks s = Some m → is_Some (m !! k) → (0 ≤ k < ackID s)%Z.

Section WithHandlers.

Variable Encode : parser.PacketHeader → payload → option (list string).
Variable add : Namespace → string → option string → serverSocket + string.

(** [s.emitter.GetHandlers(eventName)] of the socket with the given ID. *)
Variable GetHandlers : string → string → list eventHandler.

(** Of an ack callback: the types of its arguments and the user function
    behind [ack.Call], which returns an error or nil. *)
Variable ackInputArgs : ackHandler → list Kind.
Variable ackCall : ackHandler → list any → option string.

(** [func (s *serverSocket) sendAckPacket(id, values)].  Every value of
    [any] can be turned into an interface, so the loop over [CanInterface]
    copies the values. *)
Definition sendAckPacket (id : Z) (values : list any) (s : serverSocket)
    : list effect :=
  let header := parser.mkHeader parser.PacketTypeAck (nsp s) (Some id) in
  match Encode header (PayloadValues values) with
  | None => [OnError ErrEncode]
  | Some buffers => [Sent buffers]
  end.

(** [func (s *serverSocket) sendControlPacket(typ, v ...)] *)
Definition sendControlPacket (typ : parser.PacketType) (v : list any)
    (s : serverSocket) : list effect :=
  let header := parser.mkHeader typ (nsp s) None in
  match Encode header (PayloadValues v) with
  | None => [OnError ErrEncode]
  | Some buffers => [Sent buffers]
  end.

(** [func (s *serverSocket) onEvent(handler, header, decode)]; the
    goroutine that calls the handler runs at once. *)
Definition onEvent (handler : eventHandler) (header : parser.PacketHeader)
    (decode : list Kind → option (list any)) (s : serverSocket) : list effect :=
  match decode (inputArgs handler) with
  | None => [OnError ErrDecode]
  | Some values =>
      if bool_decide (length values = length (inputArgs handler)) then
        match Call handler values with
        | inr err => [OnError (ErrCall err)]
        | inl ret =>
            match parser.ID header with
            | Some id => sendAckPacket id ret s
            | None => []
            end
        end
      else [OnError ErrArguments]
  end.

(** [func (s *serverSocket) onAck(header, decode)].  A look-up in the nil
    map finds nothing. *)
Definition onAck (header : parser.PacketHeader)
    (decode : list Kind → option (list any)) (s : serverSocket)
    : serverSocket * list effect :=
  match parser.ID header with
  | None => (s, [OnError ErrNilID])
  | Some id =>
      match acks s with
      | None => (s, [OnError (ErrAckNotFound id)])
      | Some m =>
          match m !! id with
          | None => (s, [OnError (ErrAckNotFound id)])
          | Some ack =>
              let s := mkServerSocket (sio.id s) (nsp s) (Some (delete id m)) (ackID s) in
              match decode (ackInputArgs ack) with
              | None => (s, [OnError ErrDecode])
              | Some values =>
                  if bool_decide (length values = length (ackInputArgs ack)) then
                    match ackCall ack values with
                    | Some err => (s, [AckCalled ack values; OnError (ErrCall err)])
                    | None => (s, [AckCalled ack values])
                    end
                  else (s, [OnError ErrArguments])
              end
          end
      end
  end.

(** [func (s *serverSocket) onClose(reason)] *)
Definition onClose (reason : string) (s : serverSocket) : list effect :=
  [EmitReserved "disconnecting" reason; NspRemove (id s); LeaveAll (id s);
   ConnRemove (id s); EmitReserved "disconnect" reason].

(** [func (s *serverSocket) onDisconnect()] *)
Definition onDisconnect (s : serverSocket) : list effect :=
  onClose "server namespace disconnect" s.

(** [func (s *serverSocket) onPacket(header, eventName, decode) error] *)
Definition onPacket (header : parser.PacketHeader) (eventName : string)
    (decode : list Kind → option (list any)) (s : serverSocket)
    : serverSocket * list effect * option socketError :=
  match parser.Typ header with
  | parser.PacketTypeEvent | parser.PacketTypeBinaryEvent =>
      let handlers := GetHandlers (id s) eventName in
      (s, concat (map (λ handler, onEvent handler header decode s) handlers), None)
  | parser.PacketTypeAck | parser.PacketTypeBinaryAck =>
      let '(s, effects) := onAck header decode s in (s, effects, None)
  | parser.PacketTypeDisconnect => (s, onDisconnect s, None)
  | typ => (s, [], Some (ErrInvalidPacketType typ))
  end.

(** What an effect of a socket does to its connection. *)
Definition applyEffect (c : serverConn) (e : effect) : serverConn :=
  match e with
  | Sent buffers => sendBuffers buffers c
  | ConnRemove sid =>
      mkServerConn (conn_id c) (serverSocketStore.Remove sid (sockets c))
                   (nsps c) (outbox c)
  | _ => c
  end.

(** [func (c *serverConn) onFinishEIOPacket(header, eventName, decode)].
    [decoded] is the outcome of [decode] for the auth value of a CONNECT.
    The socket that is found is an object of the store: what [onPacket]
    does to it shows in the store under the same key.  The error that
    [onPacket] returns is dropped. *)
Definition onFinishEIOPacket (header : parser.PacketHeader) (eventName : string)
    (decoded : option (list string)) (decode : list Kind → option (list any))
    (srv : Server) (c : serverConn) : result (Server * serverConn * list effect) :=
  let header :=
    if bool_decide (parser.Namespace header = EmptyString)
    then parser.mkHeader (parser.Typ header) "/" (parser.ID header)
    else header in
  if bool_decide (parser.Typ header = parser.PacketTypeConnect) then
    match connect Encode add header decoded srv c with
    | Ok (srv, c) => Ok (srv, c, [])
    | Panic msg => Panic msg
    end
  else
    match serverSocketStore.Get (parser.Namespace header) (sockets c) with
    | None => Ok (srv, c, [])
    | Some socket =>
        let '(socket, effects, _) := onPacket header eventName decode socket in
        let c := mkServerConn (conn_id c)
                   (<[parser.Namespace header := socket]> (sockets c))
                   (nsps c) (outbox c) in
        Ok (srv, foldl applyEffect c effects, effects)
    end.

End WithHandlers.

End sio.

(** ** Package [eio]: the Engine.IO server *)

Module eio.

(** *** Engine.IO packets *)

Inductive PacketType : Type :=
| PacketTypeOpen
| PacketTypeClose
| PacketTypePing
| PacketTypePong
| PacketTypeMessage
| PacketTypeUpgrade
| PacketTypeNoop.

#[global] Instance PacketType_eq_dec : EqDecision PacketType.
Proof. solve_decision. Defined.

Record Packet : Type := mkPacket {
  Typ : PacketType;
  IsBinary : bool;
  Data : string
}.

#[global] Instance Packet_eq_dec : EqDecision Packet.
Proof. solve_decision. Defined.

(** Modelled from the spec: [parser.NewPacket], whose definition is not
    among the sources.  Section 3: an Engine.IO packet is a kind, a payload
    and the [isBinary] flag; [None] stands for the error result, which no
    input of this model produces. *)
Definition NewPacket (packetType : PacketType) (isBinary : bool) (data : string)
    : option Packet :=
  Some (mkPacket packetType isBinary data).

(** *** The HTTP front *)

(** [strconv.Atoi] of the Go library: an optional sign, then at least one
    decimal digit and nothing else, the value within the 64-bit [int]. *)
Definition digitValue (ch : ascii) : option Z :=
  let n := Z.of_nat (nat_of_ascii ch) in
  if bool_decide (48 ≤ n ≤ 57)%Z then Some (n - 48)%Z else None.

Fixpoint parseDigits (s : string) (n : Z) : option Z :=
  match s with
  | EmptyString => Some n
  | String ch rest =>
      match digitValue ch with
      | Some d => parseDigits rest (n * 10 + d)%Z
      | None => None
      end
  end.

Definition Atoi (s : string) : option Z :=
  match s with
  | EmptyString => None
  | String ch rest =>
      let neg := bool_decide (ch = "-"%char) in
      let digits :=
        if bool_decide (ch = "-"%char ∨ ch = "+"%char) then rest else s in
      match digits with
      | EmptyString => None
      | String _ _ =>
          match parseDigits digits 0 with
          | None => None
          | Some n =>
              let n := if neg then (- n)%Z else n in
              if bool_decide (- 2 ^ 63 ≤ n < 2 ^ 63)%Z then Some n else None
          end
      end
  end.

(** [url.Values.Get]: the first value stored under [key], else the empty
    string. *)
Fixpoint Get (key : string) (q : list (string * string)) : string :=
  match q with
  | [] => ""
  | (k, v) :: rest => if bool_decide (k = key) then v else Get key rest
  end.

(** The request as [ServeHTTP] reads it: the method and [r.URL.Query()]. *)
Record Request : Type := mkRequest {
  Method : string;
  Query : list (string * string)
}.

(** The error codes of [writeServerError]. *)
Inductive ErrorCode : Type :=
| ErrorUnknownTransport
| ErrorUnknownSID
| ErrorBadHandshakeMethod
| ErrorBadRequest
| ErrorForbidden
| ErrorUnsupportedProtocolVersion.

Record ServerError : Type := mkServerError {
  Code : Z;
  Message : string
}.

(** Modelled from the spec: the table [serverErrors], whose definition is
    not among the sources (section 6, error responses). *)
Definition serverErrors (code : ErrorCode) : ServerError :=
  match code with
  | ErrorUnknownTransport => mkServerError 0 "Transport unknown"
  | ErrorUnknownSID => mkServerError 1 "Session unknown"
  | ErrorBadHandshakeMethod => mkServerError 2 "Bad handshake method"
  | ErrorBadRequest => mkServerError 3 "Bad request"
  | ErrorForbidden => mkServerError 4 "Forbidden (auth)"
  | ErrorUnsupportedProtocolVersion => mkServerError 5 "Unsupported protocol version"
  end.

(** Modelled from the spec: the constant [ProtocolVersion], whose
    definition is not among the sources (section 6: [EIO] must equal 4). *)
Definition ProtocolVersion : Z := 4.

Definition StatusBadRequest : Z := 400.
Definition StatusTeapot : Z := 418.

(** What serving one request does, in order: writes to the
    [http.ResponseWriter], and the calls into the rest of the server. *)
Inductive Action : Type :=
| WriteHeader (status : Z)
| WriteJSON (e : ServerError)
| HandleHandshake
| StoreGet (sid : string)
| MaybeUpgrade (sid upgradeTo : string)
| TransportServeHTTP (sid : string).

(** Modelled from the spec: [writeServerError], whose definition is not
    among the sources (section 6: HTTP 400 with a JSON body
    [{code,message}]). *)
Definition writeServerError (code : ErrorCode) : list Action :=
  [WriteHeader StatusBadRequest; WriteJSON (serverErrors code)].

(** A transport object: its name, the packets handed to [Send], oldest
    first, and whether [Close] or [Discard] was called on it. *)
Record Transport : Type := mkTransport {
  TName : string;
  Sent : list Packet;
  Closed : bool
}.

Definition Send (packets : list Packet) (t : Transport) : Transport :=
  mkTransport (TName t) (Sent t ++ packets) (Closed t).

Definition Close (t : Transport) : Transport :=
  mkTransport (TName t) (Sent t) true.

(** The server: whether the channel [closed] is closed, and for each
    session ID in the store the transport of its socket. *)
Record Server : Type := mkServer {
  closed : bool;
  store : gmap string Transport;
  upgradeTimeout : time.Duration
}.

Definition IsClosed (s : Server) : bool := closed s.

(** [func (s *Server) ServeHTTP(w, r)] *)
Definition ServeHTTP (s : Server) (r : Request) : list Action :=
  if IsClosed s then [WriteHeader StatusTeapot]
  else
    let q := Query r in
    match Atoi (Get "EIO" q) with
    | None => writeServerError ErrorUnsupportedProtocolVersion
    | Some version =>
        if bool_decide (version ≠ ProtocolVersion)
        then writeServerError ErrorUnsupportedProtocolVersion
        else
          let sid := Get "sid" q in
          if bool_decide (sid = "") then [HandleHandshake]
          else
            match store s !! sid with
            | None => StoreGet sid :: writeServerError ErrorUnknownSID
            | Some t =>
                let n := Get "transport" (Query r) in
                if bool_decide (TName t ≠ n)
                then [StoreGet sid; MaybeUpgrade sid n]
                else [StoreGet sid; TransportServeHTTP sid]
            end
    end.

(** *** Transport upgrade *)

(** Which of the two transport objects of an upgrade the socket uses. *)
Inductive slot : Type := OldTransport | NewTransport.

#[global] Instance slot_eq_dec : EqDecision slot.
Proof. solve_decision. Defined.

(** The objects that the closures of [maybeUpgrade] share: the transport
    [old] the socket had when the upgrade began, the websocket transport
    [t], the transport of the socket ([active] names one of the two, so a
    send through the socket and a send on that transport hit one object),
    the channel [done] (true once closed), the [sync.Once] (true once
    fired), and the errors reported to [s.onError] and [socket.onError]. *)
Record upgrade : Type := mkUpgrade {
  old : Transport;
  t : Transport;
  active : slot;
  done : bool;
  once : bool;
  timerExpired : bool;
  serverOnError : list string;
  socketOnError : list string
}.

Definition transportOf (u : upgrade) : Transport :=
  match active u with OldTransport => old u | NewTransport => t u end.

(** [t.Send(packets...)] on the new transport. *)
Definition tSend (packets : list Packet) (u : upgrade) : upgrade :=
  mkUpgrade (old u) (Send packets (t u)) (active u) (done u) (once u)
            (timerExpired u) (serverOnError u) (socketOnError u).

(** [t.Close()] on the new transport. *)
Definition tClose (u : upgrade) : upgrade :=
  mkUpgrade (old u) (Close (t u)) (active u) (done u) (once u)
            (timerExpired u) (serverOnError u) (socketOnError u).

(** Modelled from the spec: [serverSocket.Send], whose definition is not
    among the sources: the packets go to the transport the socket
    currently uses. *)
Definition socketSend (packets : list Packet) (u : upgrade) : upgrade :=
  match active u with
  | OldTransport =>
      mkUpgrade (Send packets (old u)) (t u) (active u) (done u) (once u)
                (timerExpired u) (serverOnError u) (socketOnError u)
  | NewTransport => tSend packets u
  end.

(** Modelled from the spec: [serverSocket.upgradeTo], whose definition is
    not among the sources.  Section 4.4: the old transport is closed and the
    connection swaps its active transport. *)
Definition upgradeTo (u : upgrade) : upgrade :=
  match active u with
  | OldTransport =>
      mkUpgrade (Close (old u)) (t u) NewTransport (done u) (once u)
                (timerExpired u) (serverOnError u) (socketOnError u)
  | NewTransport => u
  end.

(** [once.Do(func() { close(done) })] *)
Definition onceCloseDone (u : upgrade) : upgrade :=
  if once u then u
  else mkUpgrade (old u) (t u) (active u) true true
                 (timerExpired u) (serverOnError u) (socketOnError u).

(** The closure [onPacket] of [maybeUpgrade].  The goroutine of
    [go socket.Send(noop)] runs at once. *)
Definition onPacket (packet : Packet) (u : upgrade) : upgrade :=
  match Typ packet with
  | PacketTypePing =>
      match NewPacket PacketTypePong false "probe" with
      | None => u
      | Some pong =>
          let u := tSend [pong] u in
          match NewPacket PacketTypeNoop false "" with
          | None => u
          | Some noop => socketSend [noop] u
          end
      end
  | PacketTypeUpgrade => upgradeTo (onceCloseDone u)
  | _ =>
      let u := tClose u in
      mkUpgrade (old u) (t u) (active u) (done u) (once u) (timerExpired u)
                (serverOnError u)
                (socketOnError u ++ ["upgrade failed: invalid packet received"])
  end.

(** The goroutine of [maybeUpgrade], at the instant [time.After] fires:
    when [done] was closed before, the [select] already returned through
    that case. *)
Definition onUpgradeTimeout (u : upgrade) : upgrade :=
  if done u || timerExpired u then u
  else
    let u := tClose u in
    mkUpgrade (old u) (t u) (active u) (done u) (once u) true
              (serverOnError u ++ ["eio: upgrade failed: upgradeTimeout exceeded"])
              (socketOnError u).

(** [func (s *Server) maybeUpgrade(w, r, socket, upgradeTo)], up to
    [t.PostHandshake()]: either the answer of a refused upgrade, or the
    shared objects with which the callbacks start.  [handshake] is whether
    [t.Handshake(nil, w, r)] returned no error. *)
Definition maybeUpgrade (socketTransport : Transport) (upgradeTo : string)
    (handshake : bool) : list Action + upgrade :=
  if bool_decide (upgradeTo ≠ "websocket") then inl (writeServerError ErrorBadRequest)
  else if negb handshake then inl []
  else inr (mkUpgrade socketTransport (mkTransport "websocket" [] false)
                      OldTransport false false false [] []).

(** What happens to an upgrade afterwards: packets arrive on the new
    transport, and the timer fires once. *)
Inductive event : Type :=
| Receive (packet : Packet)
| UpgradeTimeout.

Definition step (u : upgrade) (e : event) : upgrade :=
  match e with
  | Receive packet => onPacket packet u
  | UpgradeTimeout => onUpgradeTimeout u
  end.

Definition run (events : list event) (u : upgrade) : upgrade :=
  foldl step u events.

(** The event is the arrival of an UPGRADE packet. *)
Definition receivesUpgrade (e : event) : bool :=
  match e with
  | Receive packet => bool_decide (Typ packet = PacketTypeUpgrade)
  | UpgradeTimeout => false
  end.

(** The event is the expiry of the upgrade timer. *)
Definition isUpgradeTimeout (e : event) : bool :=
  match e with
  | Receive _ => false
  | UpgradeTimeout => true
  end.

(** *** Configuration, [NewServer] and [Run] *)

Module ServerConfig.
Record t : Type := mk {
  Authenticator : option (Request → bool);
  PingInterval : time.Duration;
  PingTimeout : time.Duration;
  UpgradeTimeout : time.Duration;
  MaxBufferSize : Z;
  DisableMaxBufferSize : bool
}.
End ServerConfig.

(** The fields of [Server] that [NewServer] fills from the configuration. *)
Module fields.
Record t : Type := mk {
  authenticator : Request → bool;
  pingInterval : time.Duration;
  pingTimeout : time.Duration;
  upgradeTimeout : time.Duration;
  maxBufferSize : Z;
  disableMaxBufferSize : bool
}.
End fields.

(** Modelled from the spec: the constants [defaultPingInterval],
    [defaultPingTimeout], [defaultUpgradeTimeout] and
    [defaultMaxBufferSize], whose definitions are not among the sources
    (section 5: 25 s, 20 s, 10 s and 1 MiB). *)
Definition defaultPingInterval : time.Duration := (25 * time.Second)%Z.
Definition defaultPingTimeout : time.Duration := (20 * time.Second)%Z.
Definition defaultUpgradeTimeout : time.Duration := (10 * time.Second)%Z.
Definition defaultMaxBufferSize : Z := 1048576.

(** [func NewServer(onSocket, config) *Server], for the fields above; a nil
    [config] is the zero configuration. *)
Definition NewServer (config : option ServerConfig.t) : fields.t :=
  let config :=
    default (ServerConfig.mk None 0%Z 0%Z 0%Z 0%Z false) config in
  fields.mk
    (default (λ _, true) (ServerConfig.Authenticator config))
    (if bool_decide (ServerConfig.PingInterval config = 0%Z)
     then defaultPingInterval else ServerConfig.PingInterval config)
    (if bool_decide (ServerConfig.PingTimeout config = 0%Z)
     then defaultPingTimeout else ServerConfig.PingTimeout config)
    (if bool_decide (ServerConfig.UpgradeTimeout config = 0%Z)
     then defaultUpgradeTimeout else ServerConfig.UpgradeTimeout config)
    (if ServerConfig.DisableMaxBufferSize config then 0%Z
     else if bool_decide (ServerConfig.MaxBufferSize config = 0%Z)
          then defaultMaxBufferSize else ServerConfig.MaxBufferSize config)
    (ServerConfig.DisableMaxBufferSize config).

(** The errors of [Run]. *)
Inductive RunError : Type :=
| ErrServerClosed
| ErrPingInterval
| ErrPingTimeout
| ErrUpgradeTimeout.

(** [func (s *Server) Run() error]; [None] is nil. *)
Definition Run (isClosed : bool) (s : fields.t) : option RunError :=
  if isClosed then Some ErrServerClosed
  else if bool_decide (fields.pingInterval s < 1 * time.Second)%Z then Some ErrPingInterval
  else if bool_decide (fields.pingTimeout s < 1 * time.Second)%Z then Some ErrPingTimeout
  else if bool_decide (fields.upgradeTimeout s < 1 * time.Second)%Z then Some ErrUpgradeTimeout
  else None.

(** [func (s *Server) Close() error]: the [sync.Once] closes the channel
    [closed] at the first call; [closeAll] is [s.store.closeAll()], which is
    not among the sources. *)
Definition CloseServer (closeAll : gmap string Transport → gmap string Transport)
    (s : Server) : Server :=
  mkServer true (closeAll (store s)) (eio.upgradeTimeout s).

(** *** [handleHandshake] *)

Module HandshakeResponse.
Record t : Type := mk {
  SID : string;
  Upgrades : list string;
  PingInterval : Z;
  PingTimeout : Z
}.
End HandshakeResponse.

Definition Millisecond : time.Duration := 1000000%Z.
Definition StatusForbidden : Z := 403.
Definition StatusInternalServerError : Z := 500.

(** What a handshake does, in order: writes to the response, the call of
    the authenticator, the generation of the SID, [s.onError], the
    handshake of the new transport with the OPEN packet (the websocket
    transport is created with [supportsBinary], the polling transport
    without), the creation of the socket with [s.onSocket], [socket.close]
    and [t.PostHandshake]. *)
Inductive handshakeAction : Type :=
| Write (a : Action)
| Authenticate
| GenerateSID
| ServerOnError (msg : string)
| TransportHandshake (transport : string) (supportsBinary : option bool) (open : Packet)
| OnSocket (sid : string) (upgrades : list string)
| SocketClose (sid : string)
| PostHandshake (transport : string).

Section WithStore.

(** [json.Marshal] of the handshake response; [None] is an error. *)
Variable Marshal : HandshakeResponse.t → option string.

(** [s.store.set(sid, socket)], which is not among the sources: the store
    afterwards, or [None] when it reports that the SID is taken. *)
Variable storeSet :
  string → Transport → gmap string Transport → option (gmap string Transport).

(** The closure [newHandshakePacket] of [handleHandshake]. *)
Definition newHandshakePacket (s : fields.t) (sid : string)
    (upgrades : list string) : option Packet :=
  match Marshal (HandshakeResponse.mk sid upgrades
                   (fields.pingInterval s ÷ Millisecond)
                   (fields.pingTimeout s ÷ Millisecond)) with
  | None => None
  | Some data => NewPacket PacketTypeOpen false data
  end.

(** [func (s *Server) handleHandshake(w, r)].  [generated] is the outcome of
    [s.generateSID()] and [handshake] whether [t.Handshake] returned no
    error.  The result is what was done and the store afterwards. *)
Definition handleHandshake (s : fields.t) (store : gmap string Transport)
    (r : Request) (generated : option string) (handshake : bool)
    : list handshakeAction * gmap string Transport :=
  if bool_decide (Method r ≠ "GET")
  then (Write <$> writeServerError ErrorBadHandshakeMethod, store)
  else if negb (fields.authenticator s r)
  then ([Authenticate; Write (WriteHeader StatusForbidden)], store)
  else
    let q := Query r in
    let n := Get "transport" q in
    let supportsBinary := bool_decide (Get "b64" q = EmptyString) in
    match generated with
    | None =>
        ([Authenticate; GenerateSID; Write (WriteHeader StatusInternalServerError);
          ServerOnError "generateSID"], store)
    | Some sid =>
        let created :=
          if bool_decide (n = "polling") then Some (["websocket"], None)
          else if bool_decide (n = "websocket") then Some ([], Some supportsBinary)
          else None in
        match created with
        | None =>
            ([Authenticate; GenerateSID] ++
             (Write <$> writeServerError ErrorUnknownTransport), store)
        | Some (upgrades, binary) =>
            match newHandshakePacket s sid upgrades with
            | None =>
                ([Authenticate; GenerateSID;
                  Write (WriteHeader StatusInternalServerError);
                  ServerOnError "newHandshakePacket failed"], store)
            | Some handshakePacket =>
                if negb handshake
                then ([Authenticate; GenerateSID;
                       TransportHandshake n binary handshakePacket], store)
                else
                  match storeSet sid (mkTransport n [] false) store with
                  | None =>
                      ([Authenticate; GenerateSID;
                        TransportHandshake n binary handshakePacket;
                        OnSocket sid upgrades;
                        Write (WriteHeader StatusInternalServerError);
                        ServerOnError "sid's overlap"; SocketClose sid], store)
                  | Some store' =>
                      ([Authenticate; GenerateSID;
                        TransportHandshake n binary handshakePacket;
                        OnSocket sid upgrades; PostHandshake n], store')
                  end
            end
        end
    end.

End WithStore.

End eio.

(** ** Package [sio], continued: packets from the Engine.IO socket *)

Module sio_conn.

Section WithParser.

(** The connection with its parser and everything the parser's callback
    [c.onFinishEIOPacket] reaches. *)
Variable State : Type.

(** [c.parser.Add(packet.Data, c.onFinishEIOPacket)]: the state afterwards,
    callbacks included, and whether an error was returned. *)
Variable parserAdd : string → State → State * bool.

(** The loop of [func (c *serverConn) onEIOPacket(packets ...)]; the flag
    says whether it returned from inside the loop.  [c.onError] has an
    empty body. *)
Fixpoint onEIOPacketLoop (packets : list eio.Packet) (st : State) : State * bool :=
  match packets with
  | [] => (st, false)
  | packet :: rest =>
      if bool_decide (eio.Typ packet = eio.PacketTypeMessage) then
        let '(st, err) := parserAdd (eio.Data packet) st in
        if err then (st, true) else onEIOPacketLoop rest st
      else onEIOPacketLoop rest st
  end.

Definition onEIOPacket (packets : list eio.Packet) (st : State) : State :=
  (onEIOPacketLoop packets st).1.

End WithParser.

Arguments onEIOPacketLoop {State}.
Arguments onEIOPacket {State}.

End sio_conn.

(** ** Package [websocket]: the client transport *)

Module websocket.

(** An error of the connection: a close frame with its code, or any other
    error. *)
Inductive connError : Type :=
| CloseError (code : Z)
| OtherError (msg : string).

(** [websocket.IsCloseError(err, codes...)] of the gorilla library. *)
Definition IsCloseError (err : option connError) (codes : list Z) : bool :=
  match err with
  | Some (CloseError code) => bool_decide (code ∈ codes)
  | _ => false
  end.

Inductive messageType : Type := TextMessage | BinaryMessage.

(** [ClientTransport]: whether [t.conn] is set, whether the [sync.Once] has
    fired, and what the transport did so far: the number of calls of
    [t.conn.Close()], the errors passed to [callbacks.OnClose], the packets
    passed to [callbacks.OnPacket] and the packets encoded into a message
    writer of the connection, each with the type of its message. *)
Record ClientTransport : Type := mkClientTransport {
  sid : string;
  dialed : bool;
  once : bool;
  connCloses : nat;
  onClose : list (option connError);
  onPacket : list eio.Packet;
  written : list (messageType * eio.Packet)
}.

(** [func (t *ClientTransport) Name() string] *)
Definition Name : string := "websocket".

Section WithCodes.

(** The package variable [expectedCloseCodes] is not among the sources. *)
Variable expectedCloseCodes : list Z.

(** [func (t *ClientTransport) close(err error)] *)
Definition close (err : option connError) (t : ClientTransport) : ClientTransport :=
  if once t then t
  else
    let err := if IsCloseError err expectedCloseCodes then None else err in
    mkClientTransport (sid t) (dialed t) true
      (if dialed t then S (connCloses t) else connCloses t)
      (onClose t ++ [err]) (onPacket t) (written t).

(** [func (t *ClientTransport) Close()] *)
Definition Close (t : ClientTransport) : ClientTransport := close None t.

(** [func (t *ClientTransport) Discard()] *)
Definition Discard (t : ClientTransport) : ClientTransport :=
  if once t then t
  else
    mkClientTransport (sid t) (dialed t) true
      (if dialed t then S (connCloses t) else connCloses t)
      (onClose t) (onPacket t) (written t).

Definition messageTypeOf (p : eio.Packet) : messageType :=
  if eio.IsBinary p then BinaryMessage else TextMessage.

(** [func (t *ClientTransport) Send(packets ...)], on a transport whose
    [t.conn] is set (on a nil [t.conn] the call of [NextWriter] panics).
    Each packet comes with the outcome of writing it: the error of
    [t.conn.NextWriter] or of [p.Encode], if any. *)
Fixpoint Send (packets : list (eio.Packet * option connError))
    (t : ClientTransport) : ClientTransport :=
  match packets with
  | [] => t
  | (p, None) :: rest =>
      Send rest
        (mkClientTransport (sid t) (dialed t) (once t) (connCloses t)
           (onClose t) (onPacket t) (written t ++ [(messageTypeOf p, p)]))
  | (p, Some err) :: _ => close (Some err) t
  end.

(** [func (t *ClientTransport) Run()], over the outcomes of the calls of
    [t.nextPacket()] so far, on a transport whose [t.conn] is set. *)
Fixpoint Run (reads : list (eio.Packet + connError)) (t : ClientTransport)
    : ClientTransport :=
  match reads with
  | [] => t
  | inl p :: rest =>
      Run rest
        (mkClientTransport (sid t) (dialed t) (once t) (connCloses t)
           (onClose t) (onPacket t ++ [p]) (written t))
  | inr err :: _ => close (Some err) t
  end.

(** A call of one of the methods. *)
Inductive call : Type :=
| CallClose
| CallDiscard
| CallSend (packets : list (eio.Packet * option connError))
| CallRun (reads : list (eio.Packet + connError)).

(** [Send] and [Run] use [t.conn] without a test for nil. *)
Definition needsConn (c : call) : bool :=
  match c with
  | CallSend _ | CallRun _ => true
  | _ => false
  end.

Definition perform (t : ClientTransport) (c : call) : ClientTransport :=
  match c with
  | CallClose => Close t
  | CallDiscard => Discard t
  | CallSend packets => Send packets t
  | CallRun reads => Run reads t
  end.

Definition performAll (calls : list call) (t : ClientTransport) : ClientTransport :=
  foldl perform t calls.

End WithCodes.

End websocket.

(** ** Concrete inputs

    The objects of [TestRestoreMissedPackets] and the inputs at which the
    code is evaluated below. *)

Module scenario.

(** A stand-in for the ID generator: the IDs are "A", "B", "C", ... *)
Definition letterYeast (n : nat) : string * nat :=
  (String (ascii_of_nat (65 + n)) EmptyString, S n).

Definition seconds (n : Z) : time.Duration := (n * time.Second)%Z.

Definition eventHeader : parser.PacketHeader :=
  parser.mkHeader parser.PacketTypeEvent "/" None.

Definition ackedHeader : parser.PacketHeader :=
  parser.mkHeader parser.PacketTypeEvent "/" (Some 1234%Z).

Definition ackTypeHeader : parser.PacketHeader :=
  parser.mkHeader parser.PacketTypeAck "/" None.

Definition session1 : adapter.SessionToPersist.t :=
  adapter.SessionToPersist.mk "s1" "p1" ["r1"; "r2"] [].

(** The session as [PersistSession] stores it at instant 0. *)
Definition stored1 : adapter.sessionWithTimestamp.t :=
  adapter.sessionWithTimestamp.mk session1 0%Z.

Definition toRoom (r : string) : adapter.BroadcastOptions.t :=
  adapter.BroadcastOptions.mk {[ r ]} ∅.

Definition exceptRoom (r : string) : adapter.BroadcastOptions.t :=
  adapter.BroadcastOptions.mk ∅ {[ r ]}.

(** The adapter after the session is persisted (at instant 0) and the
    first event is broadcast (at 1 s). *)
Definition afterHello : adapter.sessionAwareAdapter nat :=
  adapter.Broadcast letterYeast (seconds 1) eventHeader [AnyString "hello"]
    adapter.NewBroadcastOptions
    (adapter.PersistSession 0%Z session1
       (adapter.NewSessionAwareAdapter (seconds 5) 0)).

(** The packet that this first broadcast buffers. *)
Definition helloPacket : adapter.PersistedPacket.t :=
  adapter.PersistedPacket.mk "A" (seconds 1) adapter.NewBroadcastOptions None
    [AnyString "hello"; AnyString "A"].

(** The adapter after all seven broadcasts of the test (all at 1 s). *)
Definition afterAll : adapter.sessionAwareAdapter nat :=
  let b h v o a := adapter.Broadcast letterYeast (seconds 1) h [AnyString v] o a in
  b ackTypeHeader "ack type" adapter.NewBroadcastOptions
    (b ackedHeader "with ack" adapter.NewBroadcastOptions
       (b eventHeader "no except" (exceptRoom "r3")
          (b eventHeader "except" (exceptRoom "r2")
             (b eventHeader "room" (toRoom "r1")
                (b eventHeader "all" adapter.NewBroadcastOptions afterHello))))).

(** A packet emitted at instant 0, alone in the buffer of an adapter whose
    [maxDisconnectDuration] is 5 s. *)
Definition packetAtZero : adapter.PersistedPacket.t :=
  adapter.PersistedPacket.mk "A" 0%Z adapter.NewBroadcastOptions None
    [AnyString "hello"; AnyString "A"].

Definition adapterWithPacketAtZero : adapter.sessionAwareAdapter nat :=
  adapter.mkAdapter [] (seconds 5) 1 ∅ [packetAtZero].

(** A parser that encodes every packet to one text buffer. *)
Definition oneBuffer (h : parser.PacketHeader) (p : sio.payload)
    : option (list string) :=
  Some [parser.Namespace h].

(** A namespace without middleware: every connection gets a socket. *)
Definition acceptAll (n : sio.Namespace) (conn : string) (auth : option string)
    : sio.serverSocket + string :=
  inl (sio.mkServerSocket "socket-1" (sio.Name n) None 0).

(** A namespace whose middleware refuses every connection. *)
Definition rejectAll (n : sio.Namespace) (conn : string) (auth : option string)
    : sio.serverSocket + string :=
  inr "not authorized".

(** A server on which no namespace was created and that does not accept
    any namespace, a connection without sockets, and a CONNECT to [/foo]. *)
Definition strictServer : sio.Server := sio.mkServer ∅ false.

Definition freshConn : sio.serverConn := sio.mkServerConn "conn-1" ∅ ∅ [].

Definition connectFoo : parser.PacketHeader :=
  parser.mkHeader parser.PacketTypeConnect "/foo" None.

(** The socket that [newServerSocket] returns. *)
Definition freshSocket : sio.serverSocket :=
  sio.mkServerSocket "socket-1" "/" None 0.

(** An open Engine.IO server and the request of [TestInvalidEIOVersion]. *)
Definition openServer : eio.Server := eio.mkServer false ∅ (seconds 10).

Definition badVersionRequest : eio.Request :=
  eio.mkRequest "GET" [("EIO", "523523")].

Definition pollingTransport : eio.Transport := eio.mkTransport "polling" [] false.

Definition probe : eio.Packet := eio.mkPacket eio.PacketTypePing false "probe".

(** The upgrade of a polling socket, as [maybeUpgrade] starts it. *)
Definition pollingUpgrade : eio.upgrade :=
  eio.mkUpgrade pollingTransport (eio.mkTransport "websocket" [] false)
                eio.OldTransport false false false [] [].

(** A buffer of three packets, emitted at 0 s, 8 s and 1 s, in an adapter
    whose [maxDisconnectDuration] is 5 s and that holds the session of
    [stored1]. *)
Definition packetAtEight : adapter.PersistedPacket.t :=
  adapter.PersistedPacket.mk "B" (seconds 8) adapter.NewBroadcastOptions None
    [AnyString "again"; AnyString "B"].

Definition packetAtOne : adapter.PersistedPacket.t :=
  adapter.PersistedPacket.mk "C" (seconds 1) (toRoom "r1") None
    [AnyString "room"; AnyString "C"].

Definition mixedBuffer : adapter.sessionAwareAdapter nat :=
  adapter.mkAdapter [] (seconds 5) 3 {[ "p1" := stored1 ]}
    [packetAtZero; packetAtEight; packetAtOne].

(** A second session of the same private ID, and the rooms of [session1]
    in another order and with a repetition. *)
Definition session2 : adapter.SessionToPersist.t :=
  adapter.SessionToPersist.mk "s2" "p1" ["r3"] [helloPacket].

Definition roomsAgain : list string := ["r2"; "r1"; "r1"].

(** What the test expects from the restore at 2 s from offset "A": the
    session with the buffered packets after "A" that it should receive. *)
Definition restored1 : adapter.SessionToPersist.t :=
  adapter.SessionToPersist.mk "s1" "p1" ["r1"; "r2"]
    (List.filter
       (λ q, adapter.shouldIncludePacket ["r1"; "r2"] (adapter.PersistedPacket.Opts q))
       (drop 1 (adapter.packets afterAll))).

(** A socket whose ack table was allocated and holds the callback 7 under
    ID 0, and a second socket of the same connection. *)
Definition socketWithAcks : sio.serverSocket :=
  sio.mkServerSocket "socket-1" "/" (Some {[ 0%Z := sio.newAckHandler (AnyFunc 7) ]}) 1.

Definition otherSocket : sio.serverSocket :=
  sio.mkServerSocket "socket-2" "/admin" None 0.

(** Ack callbacks and event handlers that take one string; the handler
    answers with the length of what it got. *)
Definition oneString (ack : sio.ackHandler) : list sio.Kind := [sio.KindString].

Definition callOk (ack : sio.ackHandler) (values : list any) : option string := None.

Definition decodeWorld (types : list sio.Kind) : option (list any) :=
  Some [AnyString "world"].

Definition countHandler : sio.eventHandler :=
  sio.mkEventHandler [sio.KindString]
    (λ values, inl [AnyInt (Z.of_nat (length values))]).

Definition twoHandlers (sid eventName : string) : list sio.eventHandler :=
  if bool_decide (eventName = "hello") then [countHandler; countHandler] else [].


(** The server and the connection after the CONNECT to [/foo] was
    accepted, and an EVENT for another namespace. *)
Definition afterConnect : sio.Server * sio.serverConn :=
  match sio.connect oneBuffer acceptAll connectFoo (Some []) strictServer freshConn with
  | Ok r => r
  | Panic _ => (strictServer, freshConn)
  end.

Definition eventForFoo : parser.PacketHeader :=
  parser.mkHeader parser.PacketTypeEvent "/foo" None.

(** An Engine.IO server with one polling socket, and requests to it. *)
Definition serverWithSocket : eio.Server :=
  eio.mkServer false {[ "sid-1" := pollingTransport ]} (seconds 10).

Definition pollRequest : eio.Request :=
  eio.mkRequest "GET" [("EIO", "4"); ("transport", "polling"); ("sid", "sid-1")].

Definition handshakeRequest : eio.Request :=
  eio.mkRequest "GET" [("EIO", "4"); ("transport", "websocket"); ("b64", "1")].

Definition postRequest : eio.Request :=
  eio.mkRequest "POST" [("EIO", "4"); ("transport", "polling")].

Definition carrierPigeonRequest : eio.Request :=
  eio.mkRequest "GET" [("EIO", "4"); ("transport", "pigeon")].

(** The fields of a server whose authenticator refuses every request. *)
Definition refusingServer : eio.fields.t :=
  eio.NewServer
    (Some (eio.ServerConfig.mk (Some (λ _, false)) 0%Z 0%Z 0%Z 0%Z false)).

(** A stand-in for [json.Marshal], which keeps the SID only, and a store
    that refuses a SID that is taken. *)
Definition marshalSID (r : eio.HandshakeResponse.t) : option string :=
  Some (eio.HandshakeResponse.SID r).

Definition setIfFree (sid : string) (t : eio.Transport)
    (store : gmap string eio.Transport) : option (gmap string eio.Transport) :=
  match store !! sid with
  | Some _ => None
  | None => Some (<[sid := t]> store)
  end.


Definition messagePacket : eio.Packet := eio.mkPacket eio.PacketTypeMessage false "2[]".

(** A parser that collects the data it is given and fails on "bad". *)
Definition collect (data : string) (st : list string) : list string * bool :=
  if bool_decide (data = "bad") then (st, true) else (st ++ [data], false).

Definition badPacket : eio.Packet := eio.mkPacket eio.PacketTypeMessage false "bad".

(** A dialed websocket transport, a binary packet, and the close codes
    1000, 1001 and 1005. *)
Definition dialedTransport : websocket.ClientTransport :=
  websocket.mkClientTransport "sid-1" true false 0 [] [] [].

Definition binaryPacket : eio.Packet := eio.mkPacket eio.PacketTypeMessage true "AQID".

Definition closeCodes : list Z := [1000; 1001; 1005]%Z.

Definition brokenPipe : websocket.connError := websocket.OtherError "broken pipe".

Definition writes : list (eio.Packet * option websocket.connError) :=
  [(messagePacket, None); (binaryPacket, None); (probe, Some brokenPipe);
   (messagePacket, None)].

End scenario.

(** * Properties *)

(** ** The session-aware adapter *)

Module adapter_properties.

Import adapter.

Lemma HasExpired_true now d p :
  HasExpired now d p = true ↔ (now < PersistedPacket.EmittedAt p + d)%Z.
Proof.
  unfold HasExpired, time.Before, time.Add. apply bool_decide_eq_true.
Qed.

Lemma hasExpired_true now d s :
  hasExpired now d s = true ↔ (sessionWithTimestamp.DisconnectedAt s + d < now)%Z.
Proof.
  unfold hasExpired, time.After, time.Add. apply bool_decide_eq_true.
Qed.

Lemma hasExpired_false now d s :
  hasExpired now d s = false ↔ ¬ (sessionWithTimestamp.DisconnectedAt s + d < now)%Z.
Proof.
  rewrite <- hasExpired_true. destruct (hasExpired now d s); naive_solver.
Qed.

Lemma containsAny_true (set : gset string) (l : list string) :
  containsAny set l = true ↔ ∃ r, r ∈ l ∧ r ∈ set.
Proof.
  induction l as [|x l IH]; simpl.
  - split; [discriminate|]. intros (r & Hr & _). by apply elem_of_nil in Hr.
  - case_bool_decide as Hx.
    + split; [|done]. intros _. exists x. split; [left|done].
    + rewrite IH. split.
      * intros (r & Hr & Hs). exists r. split; [by right|done].
      * intros (r & Hr & Hs). apply elem_of_cons in Hr as [->|Hr]; [done|eauto].
Qed.

Lemma shouldIncludePacket_true (rooms : list string) (opts : BroadcastOptions.t) :
  shouldIncludePacket rooms opts = true ↔
    (BroadcastOptions.Rooms opts = ∅ ∨
     ∃ r, r ∈ rooms ∧ r ∈ BroadcastOptions.Rooms opts) ∧
    ¬ (∃ r, r ∈ rooms ∧ r ∈ BroadcastOptions.Except opts).
Proof.
  unfold shouldIncludePacket.
  rewrite andb_true_iff, orb_true_iff, negb_true_iff, bool_decide_eq_true.
  rewrite size_empty_iff, (leibniz_equiv_iff (BroadcastOptions.Rooms opts) ∅).
  rewrite containsAny_true, <- not_true_iff_false, containsAny_true. done.
Qed.

Lemma collectMissed_filter rooms (l : list PersistedPacket.t) :
  collectMissed rooms l =
  List.filter (λ q, shouldIncludePacket rooms (PersistedPacket.Opts q)) l.
Proof.
  induction l as [|q l IH]; simpl; [done|]. rewrite IH. done.
Qed.

Lemma findOffset_Some offset (l : list PersistedPacket.t) i j :
  findOffset offset l i = Some j →
  ∃ pre p post,
    l = pre ++ p :: post ∧ PersistedPacket.ID p = offset ∧
    Forall (λ q, PersistedPacket.ID q ≠ offset) pre ∧ j = i + length pre.
Proof.
  revert i. induction l as [|q l IH]; intros i; simpl; [discriminate|].
  case_bool_decide as Hq.
  - intros [= <-]. exists [], q, l. repeat split; [done|constructor|simpl; lia].
  - intros H. apply IH in H as (pre & p & post & -> & Hp & Hpre & ->).
    exists (q :: pre), p, post. repeat split; [done|by constructor|simpl; lia].
Qed.

Lemma findOffset_None offset (l : list PersistedPacket.t) i :
  findOffset offset l i = None ↔ Forall (λ q, PersistedPacket.ID q ≠ offset) l.
Proof.
  revert i. induction l as [|q l IH]; intros i; simpl.
  - split; [constructor|done].
  - case_bool_decide as Hq.
    + split; [discriminate|]. intros H. by inversion H.
    + rewrite IH. split; [by constructor|]. intros H. by inversion H.
Qed.

Lemma drop_after_prefix {A} (pre : list A) p post :
  drop (S (length pre)) (pre ++ p :: post) = post.
Proof. induction pre as [|x pre IH]; simpl; [by rewrite drop_0|exact IH]. Qed.


Section WithYeast.

Variable Yeaster : Type.
Variable Yeast : Yeaster → string * Yeaster.

(** The sweep over the sessions keeps exactly the sessions that have not
    expired. *)
Lemma cleaner_sessions now (a : sessionAwareAdapter Yeaster) pid s :
  sessions (cleaner now a) !! pid = Some s ↔
  sessions a !! pid = Some s ∧ hasExpired now (maxDisconnectDuration a) s = false.
Proof. unfold cleaner; simpl. by rewrite map_lookup_filter_Some. Qed.


End WithYeast.

Section RestoreSession.

Variable Yeaster : Type.
Implicit Type a : sessionAwareAdapter Yeaster.

(** C2. [RestoreSession(pid, offset)] returns no session when none is stored
    under [pid] or the stored one was disconnected more than
    [maxDisconnectDuration] ago; otherwise, when some buffered packet has the
    ID [offset], it returns the stored session with, as missed packets, the
    packets buffered after the first such packet that pass
    [shouldIncludePacket], in buffer order; and [shouldIncludePacket] holds
    exactly when the packet's rooms are empty or share a room with the
    session's, and its excepted rooms share none. *)
Theorem RestoreSession_missed_packets a now pid offset :
  (sessions a !! pid = None ∨
   (∃ s, sessions a !! pid = Some s ∧
         (sessionWithTimestamp.DisconnectedAt s + maxDisconnectDuration a < now)%Z) →
   (RestoreSession now pid offset a).1 = None) ∧
  (∀ s, sessions a !! pid = Some s →
        ¬ (sessionWithTimestamp.DisconnectedAt s + maxDisconnectDuration a < now)%Z →
        (∃ q, q ∈ packets a ∧ PersistedPacket.ID q = offset) →
        ∃ pre p post,
          packets a = pre ++ p :: post ∧ PersistedPacket.ID p = offset ∧
          Forall (λ q, PersistedPacket.ID q ≠ offset) pre ∧
          let stored := sessionWithTimestamp.SessionToPersist s in
          (RestoreSession now pid offset a).1 =
          Some (SessionToPersist.mk
                  (SessionToPersist.SID stored) (SessionToPersist.PID stored)
                  (SessionToPersist.Rooms stored)
                  (List.filter
                     (λ q, shouldIncludePacket (SessionToPersist.Rooms stored)
                                               (PersistedPacket.Opts q))
                     post))) ∧
  (∀ (rooms : list string) (opts : BroadcastOptions.t),
     shouldIncludePacket rooms opts = true ↔
       (BroadcastOptions.Rooms opts = ∅ ∨
        ∃ r, r ∈ rooms ∧ r ∈ BroadcastOptions.Rooms opts) ∧
       ¬ (∃ r, r ∈ rooms ∧ r ∈ BroadcastOptions.Except opts)).
Proof.
  split; [|split].
  - unfold RestoreSession. intros [-> | (s & -> & Hexp)]; [done|].
    apply hasExpired_true in Hexp. by rewrite Hexp.
  - intros s Hs Hfresh (q & Hq & Hid). unfold RestoreSession. rewrite Hs.
    apply hasExpired_false in Hfresh. rewrite Hfresh.
    destruct (findOffset offset (packets a) 0) as [index|] eqn:Hfind.
    + apply findOffset_Some in Hfind as (pre & p & post & Hl & Hp & Hpre & ->).
      exists pre, p, post. rewrite Hl. simpl.
      by rewrite drop_after_prefix, collectMissed_filter.
    + apply findOffset_None in Hfind. rewrite Forall_forall in Hfind.
      by destruct (Hfind q Hq).
  - apply shouldIncludePacket_true.
Qed.


(** C9. When an unexpired session is stored under [pid] and no buffered
    packet has the ID [offset], [RestoreSession(pid, offset)] returns no
    session and leaves the adapter, hence the session under [pid], as it
    was. *)
Theorem RestoreSession_unknown_offset a now pid offset s :
  sessions a !! pid = Some s →
  hasExpired now (maxDisconnectDuration a) s = false →
  (∀ q, q ∈ packets a → PersistedPacket.ID q ≠ offset) →
  RestoreSession now pid offset a = (None, a) ∧
  sessions (RestoreSession now pid offset a).2 !! pid = Some s.
Proof.
  intros Hs Hfresh Hno. unfold RestoreSession. rewrite Hs, Hfresh.
  assert (findOffset offset (packets a) 0 = None) as ->.
  { apply findOffset_None, Forall_forall, Hno. }
  done.
Qed.

End RestoreSession.

Import scenario.

(** C1, evaluated. With [maxDisconnectDuration] 5 s, a packet emitted at
    instant 0 is not reported expired at 10 s and survives the sweep, it is
    reported expired at 1 s and swept, and a sweep at 2 s over five packets
    emitted at 1 s drops one of them. *)
Theorem HasExpired_inverted :
  HasExpired (seconds 10) (seconds 5) packetAtZero = false ∧
  packets (cleaner (seconds 10) adapterWithPacketAtZero) = [packetAtZero] ∧
  HasExpired (seconds 1) (seconds 5) packetAtZero = true ∧
  packets (cleaner (seconds 1) adapterWithPacketAtZero) = [] ∧
  length (packets afterAll) = 5 ∧
  length (packets (cleaner (seconds 2) afterAll)) = 4.
Proof. vm_compute. repeat split. Qed.

(** C4, evaluated. The broadcast of the event ["hello"] without ack ID
    buffers one packet with the generated ID, the time, the options and the
    payload extended by the ID, and hands header and extended payload on;
    the [Header] of the buffered packet is nil. *)
Theorem Broadcast_leaves_header_nil :
  packets afterHello = [helloPacket] ∧
  PersistedPacket.Header helloPacket = None ∧
  PersistedPacket.Data helloPacket = [AnyString "hello"; AnyString "A"] ∧
  inMemoryAdapter afterHello =
    [(eventHeader, [AnyString "hello"; AnyString "A"], NewBroadcastOptions)].
Proof. vm_compute. repeat split. Qed.

(** The restore of [TestRestoreMissedPackets], from the first offset. *)
Lemma RestoreSession_missed_packets_witness :
  ∃ pre p post,
    packets afterAll = pre ++ p :: post ∧ PersistedPacket.ID p = "A" ∧
    Forall (λ q, PersistedPacket.ID q ≠ "A") pre ∧
    (RestoreSession (seconds 2) "p1" "A" afterAll).1 =
    Some (SessionToPersist.mk "s1" "p1" ["r1"; "r2"]
            (List.filter
               (λ q, shouldIncludePacket ["r1"; "r2"] (PersistedPacket.Opts q))
               post)).
Proof.
  apply (proj1 (proj2 (RestoreSession_missed_packets nat afterAll (seconds 2) "p1" "A"))
           stored1).
  - vm_compute. reflexivity.
  - vm_compute. intros H. discriminate H.
  - exists helloPacket. split; [|reflexivity].
    apply (list_elem_of_lookup_2 _ 0). vm_compute. reflexivity.
Defined.



(** A restore from an offset that no buffered packet carries. *)
Lemma RestoreSession_unknown_offset_witness :
  RestoreSession (seconds 2) "p1" "Z" afterAll = (None, afterAll) ∧
  sessions (RestoreSession (seconds 2) "p1" "Z" afterAll).2 !! "p1" =
    Some stored1.
Proof.
  apply (RestoreSession_unknown_offset nat afterAll (seconds 2) "p1" "Z"
           stored1).
  - vm_compute. reflexivity.
  - vm_compute. reflexivity.
  - apply Forall_forall. vm_compute.
    repeat (constructor; [discriminate|]). constructor.
Defined.

End adapter_properties.

(** ** Namespaces, connection handling and server sockets *)

Module sio_properties.

Import sio.

Lemma GetOrCreate_lookup namespace (store : gmap string Namespace) :
  (GetOrCreate namespace store).2 !! namespace = Some (GetOrCreate namespace store).1.
Proof.
  unfold GetOrCreate. destruct (store !! namespace) eqn:H; simpl; [done|].
  apply lookup_insert_eq.
Qed.

Lemma GetOrCreate_other namespace other (store : gmap string Namespace) :
  namespace ≠ other →
  (GetOrCreate namespace store).2 !! other = store !! other.
Proof.
  intros Hne. unfold GetOrCreate. destruct (store !! namespace); simpl; [done|].
  by apply lookup_insert_ne.
Qed.

Lemma GetOrCreate_again namespace (store : gmap string Namespace) :
  GetOrCreate namespace (GetOrCreate namespace store).2 = GetOrCreate namespace store.
Proof.
  unfold GetOrCreate. destruct (store !! namespace) eqn:H; simpl.
  - by rewrite H.
  - by rewrite lookup_insert_eq.
Qed.

(** A second [Of] with the same name finds what the first one left. *)
Lemma Of_again namespace srv :
  Of namespace (Of namespace srv).2 = Of namespace srv.
Proof.
  unfold Of.
  pose proof (GetOrCreate_again
    (match namespace with
     | String c _ =>
         if bool_decide (c ≠ "/"%char) then String "/" namespace else namespace
     | EmptyString => namespace
     end) (namespaces srv)) as H.
  destruct (GetOrCreate _ (namespaces srv)) as [n store]; simpl in *.
  by rewrite H.
Qed.

Lemma Of_empty srv :
  Of "" srv =
  ((GetOrCreate "" (namespaces srv)).1,
   mkServer (GetOrCreate "" (namespaces srv)).2 (acceptAnyNamespace srv)).
Proof. unfold Of. by destruct (GetOrCreate "" (namespaces srv)). Qed.

(** [Of] never reads [acceptAnyNamespace]. *)
Lemma Of_ignores_acceptAnyNamespace namespace store b b' :
  (Of namespace (mkServer store b)).1 = (Of namespace (mkServer store b')).1 ∧
  namespaces (Of namespace (mkServer store b)).2 =
  namespaces (Of namespace (mkServer store b')).2.
Proof.
  unfold Of; simpl.
  destruct (GetOrCreate _ store); done.
Qed.

Section WithParser.

Variable Encode : parser.PacketHeader → payload → option (list string).
Variable add : Namespace → string → option string → serverSocket + string.

(** Whenever [connect] returns, the server is the one [Of] left. *)
Lemma connect_server header values srv c srv' c' :
  connect Encode add header (Some values) srv c = Ok (srv', c') →
  srv' = (Of (parser.Namespace header) srv).2.
Proof.
  unfold connect. destruct (Of (parser.Namespace header) srv) as [n srv1].
  destruct (add n (conn_id c) _) as [socket|err].
  - destruct (Encode _ _); by intros [= <- _].
  - destruct (Encode _ _); [by intros [= <- _]|discriminate].
Qed.

(** With an allocated ack table, a trailing function is taken off the
    values, stored under the ack counter, and its ID put in the header; the
    counter advances by one modulo 2^64. *)
Lemma sendDataPacket_ack typ eventName v f s m :
  IsEventReservedForServer eventName = false →
  acks s = Some m →
  sendDataPacket Encode typ eventName (v ++ [AnyFunc f]) s =
  encodeAndSend Encode (parser.mkHeader typ (nsp s) (Some (ackID s)))
    (AnyString eventName :: v)
    (mkServerSocket (id s) (nsp s)
       (Some (<[ackID s := newAckHandler (AnyFunc f)]> m))
       ((ackID s + 1) mod uint64_modulus)).
Proof.
  intros Hres Hm. unfold sendDataPacket. rewrite Hres.
  change (AnyString eventName :: v ++ [AnyFunc f])
    with ((AnyString eventName :: v) ++ [AnyFunc f]).
  rewrite last_snoc. simpl TypeOf. cbv iota. rewrite Hm.
  rewrite length_app. simpl length.
  replace (S (length v) + 1 - 1) with (length (AnyString eventName :: v))
    by (simpl; lia).
  by rewrite take_app_length.
Qed.

End WithParser.

(** C10. For a non-empty name [s] that does not begin with ['/'], [Of(s)]
    and [Of("/" + s)] return the same namespace and leave the same server,
    and [Of("/" + s)] after [Of(s)] returns that namespace again; the empty
    name is not rewritten: [Of("")] returns the namespace stored or created
    under the empty name and does not touch the entry of ["/"]. *)
Theorem Of_normalizes srv s :
  s ≠ "" →
  (∀ rest, s ≠ String "/" rest) →
  Of s srv = Of (String "/" s) srv ∧
  Of (String "/" s) (Of s srv).2 = Of s srv ∧
  namespaces (Of "" srv).2 !! "" = Some (Of "" srv).1 ∧
  match namespaces srv !! "" with
  | Some n => (Of "" srv).1 = n
  | None => (Of "" srv).1 = mkNamespace ""
  end ∧
  namespaces (Of "" srv).2 !! "/" = namespaces srv !! "/".
Proof.
  intros Hne Hslash.
  assert (Of s srv = Of (String "/" s) srv) as Heq.
  { destruct s as [|c rest]; [done|]. unfold Of.
    rewrite (bool_decide_eq_true_2 (c ≠ "/"%char)); [|by intros ->; eapply Hslash].
    by rewrite (bool_decide_eq_false_2 ("/"%char ≠ "/"%char)); [|intros H; by apply H]. }
  split; [done|]. split; [|split; [|split]].
  - rewrite Heq. apply Of_again.
  - rewrite Of_empty. simpl. apply GetOrCreate_lookup.
  - rewrite Of_empty. simpl. unfold GetOrCreate.
    by destruct (namespaces srv !! "").
  - rewrite Of_empty. simpl. by apply GetOrCreate_other.
Qed.

Import scenario.

(** [Of("foo")] and [Of("/foo")] on a server without namespaces. *)
Lemma Of_normalizes_witness :
  Of "foo" strictServer = Of "/foo" strictServer ∧
  Of "/foo" (Of "foo" strictServer).2 = Of "foo" strictServer ∧
  namespaces (Of "" strictServer).2 !! "" = Some (Of "" strictServer).1 ∧
  match namespaces strictServer !! "" with
  | Some n => (Of "" strictServer).1 = n
  | None => (Of "" strictServer).1 = mkNamespace ""
  end ∧
  namespaces (Of "" strictServer).2 !! "/" = namespaces strictServer !! "/".
Proof.
  apply (Of_normalizes strictServer "foo").
  - intros H. discriminate H.
  - intros rest H. discriminate H.
Defined.

(** C3, evaluated. On a server with [acceptAnyNamespace] false and no
    namespace, handling a CONNECT to [/foo] leaves the namespace [/foo]
    created, whether the middleware accepts the connection or refuses it. *)
Theorem connect_creates_unknown_namespace :
  acceptAnyNamespace strictServer = false ∧
  namespaces strictServer !! "/foo" = None ∧
  (∃ c, connect oneBuffer acceptAll connectFoo (Some []) strictServer freshConn =
        Ok (mkServer {[ "/foo" := mkNamespace "/foo" ]} false, c)) ∧
  (∃ c, connect oneBuffer rejectAll connectFoo (Some []) strictServer freshConn =
        Ok (mkServer {[ "/foo" := mkNamespace "/foo" ]} false, c)).
Proof.
  repeat split; try (eexists; vm_compute; reflexivity).
Qed.

(** C5, evaluated. The socket that [newServerSocket] returns has no ack
    table, and emitting on it with a function as the final value panics at
    the store into the table. *)
Theorem sendDataPacket_panics_on_new_socket :
  newServerSocket (Some "socket-1") "/" = Some freshSocket ∧
  acks freshSocket = None ∧
  ∀ Encode,
    sendDataPacket Encode parser.PacketTypeEvent "hello"
                   [AnyString "world"; AnyFunc 0] freshSocket =
    Panic "assignment to entry in nil map".
Proof. repeat split. Qed.

End sio_properties.

(** ** The Engine.IO server *)

Module eio_properties.

Import eio.

(** C8. While the server is open, a request whose [EIO] parameter does not
    parse as the integer 4 is answered with status 400 and the JSON error
    of code 5, and neither the handshake nor the session store is
    reached. *)
Theorem ServeHTTP_unsupported_version s r :
  IsClosed s = false →
  Atoi (Get "EIO" (Query r)) ≠ Some 4%Z →
  ServeHTTP s r =
    [WriteHeader 400; WriteJSON (mkServerError 5 "Unsupported protocol version")] ∧
  (HandleHandshake ∉ ServeHTTP s r) ∧
  (∀ sid, StoreGet sid ∉ ServeHTTP s r).
Proof.
  intros Hopen Hversion.
  assert (ServeHTTP s r = writeServerError ErrorUnsupportedProtocolVersion) as ->.
  { unfold ServeHTTP. rewrite Hopen.
    destruct (Atoi (Get "EIO" (Query r))) as [version|]; [|done].
    rewrite bool_decide_eq_true_2 by (unfold ProtocolVersion; congruence).
    done. }
  split; [done|]. unfold writeServerError.
  split; [|intros sid]; intros H;
    repeat (apply elem_of_cons in H as [H|H]; [discriminate H|]);
    by apply elem_of_nil in H.
Qed.

(** While no UPGRADE has arrived, the socket stays on its old transport
    and the completion signal is not fired. *)
Lemma run_pending events u :
  Forall (λ e, receivesUpgrade e = false) events →
  active u = OldTransport ∧ done u = false ∧ once u = false →
  active (run events u) = OldTransport ∧ done (run events u) = false ∧
  once (run events u) = false.
Proof.
  unfold run. intros Hev. revert u.
  induction Hev as [|e events He _ IH]; intros u Hu; [done|].
  simpl. apply IH. destruct Hu as (Ha & Hd & Ho).
  destruct e as [[ty b d]|]; simpl in *.
  - destruct ty; try (by (cbv in He; discriminate He));
      unfold onPacket, socketSend, tSend; simpl; rewrite ?Ha; done.
  - unfold onUpgradeTimeout. rewrite Hd. simpl.
    by destruct (timerExpired u).
Qed.

(** The timer has not expired before it fires. *)
Lemma run_timer events u :
  Forall (λ e, isUpgradeTimeout e = false) events →
  timerExpired u = false → timerExpired (run events u) = false.
Proof.
  unfold run. intros Hev. revert u.
  induction Hev as [|e events He _ IH]; intros u Hu; [done|].
  simpl. apply IH. destruct e as [[ty b d]|]; simpl in *; [|done].
  unfold onPacket, upgradeTo, onceCloseDone, socketSend; simpl.
  destruct ty; simpl; try done;
    destruct (active u) eqn:Ha, (once u) eqn:Ho; simpl; rewrite ?Ha; done.
Qed.

(** C7. In an upgrade that [maybeUpgrade] started and in which no UPGRADE
    has arrived yet: a PING on the new transport makes the server send
    PONG "probe" on the new transport and a NOOP on the old one, which the
    socket still uses; an UPGRADE fires the completion signal, puts the
    socket on the new transport and closes the old one; and when the timer
    expires first, the new transport is closed and the socket stays on the
    old transport, which is untouched. *)
Theorem maybeUpgrade_protocol socketTransport u0 events :
  maybeUpgrade socketTransport "websocket" true = inr u0 →
  Forall (λ e, receivesUpgrade e = false) events →
  let u := run events u0 in
  (∀ ping, Typ ping = PacketTypePing →
     Sent (t (onPacket ping u)) =
       Sent (t u) ++ [mkPacket PacketTypePong false "probe"] ∧
     active u = OldTransport ∧
     Sent (old (onPacket ping u)) =
       Sent (old u) ++ [mkPacket PacketTypeNoop false ""]) ∧
  (∀ upg, Typ upg = PacketTypeUpgrade →
     done (onPacket upg u) = true ∧ once (onPacket upg u) = true ∧
     active (onPacket upg u) = NewTransport ∧
     transportOf (onPacket upg u) = t u ∧
     Closed (old (onPacket upg u)) = true) ∧
  (Forall (λ e, isUpgradeTimeout e = false) events →
     Closed (t (onUpgradeTimeout u)) = true ∧
     active (onUpgradeTimeout u) = OldTransport ∧
     old (onUpgradeTimeout u) = old u ∧
     transportOf (onUpgradeTimeout u) = old u).
Proof.
  intros Hinit Hev u.
  assert (active u0 = OldTransport ∧ done u0 = false ∧ once u0 = false ∧
          timerExpired u0 = false) as (Ha0 & Hd0 & Ho0 & Ht0).
  { unfold maybeUpgrade in Hinit. simpl in Hinit. by injection Hinit as <-. }
  destruct (run_pending events u0 Hev) as (Ha & Hd & Ho); [done|].
  fold u in Ha, Hd, Ho.
  split; [|split].
  - intros [ty b d] Hty; simpl in Hty; subst ty.
    unfold onPacket, socketSend, tSend; simpl. rewrite Ha. simpl. done.
  - intros [ty b d] Hty; simpl in Hty; subst ty.
    unfold onPacket, upgradeTo, onceCloseDone, transportOf; simpl.
    rewrite Ho; simpl. rewrite Ha; simpl. done.
  - intros Hnt. pose proof (run_timer events u0 Hnt Ht0) as Ht. fold u in Ht.
    unfold onUpgradeTimeout, transportOf. rewrite Hd, Ht; simpl. rewrite Ha. done.
Qed.

Import scenario.

(** The request of [TestInvalidEIOVersion], with [EIO=523523]. *)
Lemma ServeHTTP_unsupported_version_witness :
  ServeHTTP openServer badVersionRequest =
    [WriteHeader 400; WriteJSON (mkServerError 5 "Unsupported protocol version")] ∧
  (HandleHandshake ∉ ServeHTTP openServer badVersionRequest) ∧
  (∀ sid, StoreGet sid ∉ ServeHTTP openServer badVersionRequest).
Proof.
  apply (ServeHTTP_unsupported_version openServer badVersionRequest).
  - reflexivity.
  - vm_compute. intros H. discriminate H.
Defined.

(** The upgrade of a polling socket after the probe PING has arrived. *)
Lemma maybeUpgrade_protocol_witness :
  let u := run [Receive probe] pollingUpgrade in
  (∀ ping, Typ ping = PacketTypePing →
     Sent (t (onPacket ping u)) =
       Sent (t u) ++ [mkPacket PacketTypePong false "probe"] ∧
     active u = OldTransport ∧
     Sent (old (onPacket ping u)) =
       Sent (old u) ++ [mkPacket PacketTypeNoop false ""]) ∧
  (∀ upg, Typ upg = PacketTypeUpgrade →
     done (onPacket upg u) = true ∧ once (onPacket upg u) = true ∧
     active (onPacket upg u) = NewTransport ∧
     transportOf (onPacket upg u) = t u ∧
     Closed (old (onPacket upg u)) = true) ∧
  (Forall (λ e, isUpgradeTimeout e = false) [Receive probe] →
     Closed (t (onUpgradeTimeout u)) = true ∧
     active (onUpgradeTimeout u) = OldTransport ∧
     old (onUpgradeTimeout u) = old u ∧
     transportOf (onUpgradeTimeout u) = old u).
Proof.
  apply (maybeUpgrade_protocol pollingTransport pollingUpgrade [Receive probe]).
  - reflexivity.
  - repeat constructor.
Defined.

End eio_properties.

(** ** Further laws of the session-aware adapter *)

Module adapter_laws.

Import adapter adapter_properties.

Lemma collectMissed_elem rooms (l : list PersistedPacket.t) p :
  p ∈ collectMissed rooms l ↔
  p ∈ l ∧ shouldIncludePacket rooms (PersistedPacket.Opts p) = true.
Proof.
  induction l as [|q l IH]; simpl.
  - rewrite elem_of_nil. by split; [|intros [? _]].
  - destruct (shouldIncludePacket rooms (PersistedPacket.Opts q)) eqn:Hq.
    + rewrite !elem_of_cons, IH. split.
      * intros [->|[? ?]]; [by split; [left|]|by split; [right|]].
      * intros [[->|?] ?]; [by left|by right].
    + rewrite IH, elem_of_cons. split.
      * intros [? ?]. by split; [right|].
      * intros [[->|?] Hp]; [congruence|done].
Qed.


Lemma elem_of_drop_elem {A} (x : A) n (l : list A) : x ∈ drop n l → x ∈ l.
Proof.
  intros H. rewrite <- (take_drop n l). apply elem_of_app. by right.
Qed.

Lemma findOffset_found offset (l : list PersistedPacket.t) i :
  (∃ q, q ∈ l ∧ PersistedPacket.ID q = offset) →
  ∃ j, findOffset offset l i = Some j ∧ i ≤ j < i + length l.
Proof.
  intros (q & Hq & Hid). revert i.
  induction l as [|x l IH]; intros i; [by apply elem_of_nil in Hq|].
  simpl. case_bool_decide as Hx.
  - exists i. split; [done|lia].
  - apply elem_of_cons in Hq as [->|Hq]; [done|].
    destruct (IH Hq (S i)) as (j & Hj & Hr). exists j. split; [done|lia].
Qed.


(** The sweep over the buffer, index by index. *)
Lemma cleanPackets_none now d (l : list PersistedPacket.t) n :
  n ≤ length l →
  Forall (λ p, HasExpired now d p = false) (take n l) →
  cleanPackets now d l n = l.
Proof.
  induction n as [|i IH]; simpl; intros Hn Hall; [done|].
  destruct (l !! i) as [p|] eqn:Hp; [|done].
  rewrite (take_S_r _ _ _ Hp) in Hall. apply Forall_app in Hall as [Hall Hp'].
  rewrite Forall_singleton in Hp'. rewrite Hp'. apply IH; [lia|done].
Qed.

Lemma cleanPackets_last now d (pre post : list PersistedPacket.t) p k :
  k ≤ length post →
  HasExpired now d p = true →
  Forall (λ q, HasExpired now d q = false) (take k post) →
  cleanPackets now d (pre ++ p :: post) (S (length pre) + k) = pre ++ post.
Proof.
  intros Hk Hp. induction k as [|k IH]; intros Hall.
  - rewrite Nat.add_0_r. simpl. rewrite list_lookup_middle by done.
    rewrite Hp, take_app_length.
    by rewrite (drop_after_prefix pre p post).
  - replace (S (length pre) + S k) with (S (S (length pre) + k)) by lia.
    simpl cleanPackets.
    destruct (post !! k) as [x|] eqn:Hx; [|apply lookup_ge_None in Hx; lia].
    rewrite (take_S_r _ _ _ Hx) in Hall. apply Forall_app in Hall as [Hall Hx'].
    rewrite Forall_singleton in Hx'.
    assert ((pre ++ p :: post) !! (S (length pre + k)) = Some x) as ->.
    { rewrite lookup_app_r by lia.
      replace (S (length pre + k) - length pre) with (S k) by lia. done. }
    rewrite Hx'. apply IH; [lia|done].
Qed.


Section Laws.

Variable Yeaster : Type.
Variable Yeast : Yeaster → string * Yeaster.
Implicit Type a : sessionAwareAdapter Yeaster.

(** X1. One pass of [cleaner] at [now], when [p] is the last packet of the
    buffer that is younger than [maxDisconnectDuration]: exactly [p] leaves
    the buffer, a session stays iff it was disconnected at most
    [maxDisconnectDuration] ago, and nothing else changes. *)
Theorem cleaner_pass a now pre p post :
  packets a = pre ++ p :: post →
  (now < PersistedPacket.EmittedAt p + maxDisconnectDuration a)%Z →
  Forall (λ q, (PersistedPacket.EmittedAt q + maxDisconnectDuration a ≤ now)%Z) post →
  packets (cleaner now a) = pre ++ post ∧
  (∀ pid s, sessions (cleaner now a) !! pid = Some s ↔
            sessions a !! pid = Some s ∧
            ¬ (sessionWithTimestamp.DisconnectedAt s + maxDisconnectDuration a < now)%Z) ∧
  maxDisconnectDuration (cleaner now a) = maxDisconnectDuration a ∧
  yeaster (cleaner now a) = yeaster a ∧
  inMemoryAdapter (cleaner now a) = inMemoryAdapter a.
Proof.
  intros Hl Hp Hpost. split; [|split; [|done]].
  - unfold cleaner; simpl. rewrite Hl, length_app. simpl length.
    replace (length pre + S (length post)) with (S (length pre) + length post) by lia.
    apply cleanPackets_last; [done|by apply HasExpired_true|].
    rewrite firstn_all. eapply Forall_impl; [exact Hpost|].
    intros q Hq. simpl in Hq. destruct (HasExpired now _ q) eqn:E; [|done].
    apply HasExpired_true in E. lia.
  - intros pid s. rewrite cleaner_sessions, hasExpired_false. done.
Qed.


(** X3. A session that is persisted at [t0] and restored at [now] from an
    offset that is in the buffer: past [t0 + maxDisconnectDuration] nothing
    comes back; until then the session comes back with the SID, the PID and
    the rooms it was persisted with, and with missed packets that are
    buffered packets it should receive, whatever missed packets it was
    persisted with. *)
Theorem PersistSession_RestoreSession a t0 now session offset :
  (∃ q, q ∈ packets a ∧ PersistedPacket.ID q = offset) →
  let r := (RestoreSession now (SessionToPersist.PID session) offset
              (PersistSession t0 session a)).1 in
  if bool_decide (t0 + maxDisconnectDuration a < now)%Z then r = None
  else ∃ missed,
      r = Some (SessionToPersist.mk (SessionToPersist.SID session)
                  (SessionToPersist.PID session)
                  (SessionToPersist.Rooms session) missed) ∧
      ∀ p, p ∈ missed →
           p ∈ packets a ∧
           shouldIncludePacket (SessionToPersist.Rooms session)
                               (PersistedPacket.Opts p) = true.
Proof.
  intros Hoff. unfold RestoreSession, PersistSession; simpl.
  rewrite lookup_insert_eq. unfold hasExpired, time.After, time.Add; simpl.
  case_bool_decide as Hexp; [done|].
  destruct (findOffset_found offset (packets a) 0 Hoff) as (j & -> & _).
  simpl. eexists. split; [done|].
  intros p Hp. apply collectMissed_elem in Hp as [Hp ?].
  split; [|done]. by eapply elem_of_drop_elem.
Qed.

(** X4. Sessions are keyed by their private ID: persisting again under
    the same PID leaves only the later session and its time, and persisting
    touches neither the sessions of other PIDs nor the packet buffer. *)
Theorem PersistSession_latest_wins a t1 t2 s1 s2 pid :
  SessionToPersist.PID s1 = SessionToPersist.PID s2 →
  pid ≠ SessionToPersist.PID s2 →
  PersistSession t2 s2 (PersistSession t1 s1 a) = PersistSession t2 s2 a ∧
  sessions (PersistSession t2 s2 a) !! SessionToPersist.PID s2 =
    Some (sessionWithTimestamp.mk s2 t2) ∧
  sessions (PersistSession t2 s2 a) !! pid = sessions a !! pid ∧
  packets (PersistSession t2 s2 a) = packets a.
Proof.
  intros Hpid Hne. unfold PersistSession, setSessions; simpl.
  rewrite Hpid, insert_insert_eq, lookup_insert_eq.
  by rewrite lookup_insert_ne.
Qed.



(** X7. Whether a packet is included depends on the session's rooms only
    as a set; a broadcast without rooms and exceptions is included for every
    session; and a session without rooms receives exactly the broadcasts
    that name no room. *)
Theorem shouldIncludePacket_rooms_as_set (rooms rooms' : list string) opts :
  (∀ r, r ∈ rooms ↔ r ∈ rooms') →
  shouldIncludePacket rooms opts = shouldIncludePacket rooms' opts ∧
  shouldIncludePacket rooms NewBroadcastOptions = true ∧
  shouldIncludePacket [] opts = bool_decide (BroadcastOptions.Rooms opts = ∅).
Proof.
  intros Hset. split; [|split].
  - apply eq_true_iff_eq. rewrite !shouldIncludePacket_true.
    by setoid_rewrite Hset.
  - apply shouldIncludePacket_true. split; [by left|].
    intros (r & _ & Hr). by apply elem_of_empty in Hr.
  - unfold shouldIncludePacket; simpl. rewrite orb_false_r, andb_true_r.
    apply bool_decide_ext.
    by rewrite size_empty_iff, (leibniz_equiv_iff (BroadcastOptions.Rooms opts) ∅).
Qed.

(** X8. Once [RestoreSession] has found a session expired, the session is
    gone for good: any later restore under that PID returns nothing and
    changes nothing; the other sessions and the buffer were not touched. *)
Theorem RestoreSession_expired_is_final a now now' pid pid' offset offset' s :
  sessions a !! pid = Some s →
  (sessionWithTimestamp.DisconnectedAt s + maxDisconnectDuration a < now)%Z →
  pid' ≠ pid →
  let a1 := (RestoreSession now pid offset a).2 in
  RestoreSession now' pid offset' a1 = (None, a1) ∧
  sessions a1 !! pid' = sessions a !! pid' ∧
  packets a1 = packets a.
Proof.
  intros Hs Hexp Hne a1. apply hasExpired_true in Hexp.
  assert (a1 = setSessions a (delete pid (sessions a))) as ->.
  { unfold a1, RestoreSession. by rewrite Hs, Hexp. }
  unfold RestoreSession, setSessions; simpl. rewrite lookup_delete_eq.
  by rewrite lookup_delete_ne.
Qed.

(** X9. A successful restore can be repeated: as long as the session has
    not expired, restoring again from the same offset returns the same
    session and leaves the adapter as the first restore left it. *)
Theorem RestoreSession_repeatable a now now' pid offset s session :
  sessions a !! pid = Some s →
  (RestoreSession now pid offset a).1 = Some session →
  hasExpired now' (maxDisconnectDuration a) s = false →
  let a1 := (RestoreSession now pid offset a).2 in
  RestoreSession now' pid offset a1 = (Some session, a1).
Proof.
  intros Hs Hret Hfresh a1.
  assert (∃ index,
            findOffset offset (packets a) 0 = Some index ∧
            SessionToPersist.Rooms session =
              SessionToPersist.Rooms (sessionWithTimestamp.SessionToPersist s) ∧
            SessionToPersist.MissedPackets session =
              collectMissed (SessionToPersist.Rooms session)
                            (drop (S index) (packets a)) ∧
            a1 = setSessions a
                   (<[pid := sessionWithTimestamp.mk session
                               (sessionWithTimestamp.DisconnectedAt s)]> (sessions a)))
    as (index & Hfind & Hrooms & Hmissed & ->).
  { unfold a1. revert Hret. unfold RestoreSession. rewrite Hs.
    destruct (hasExpired now (maxDisconnectDuration a) s); [discriminate|].
    destruct (findOffset offset (packets a) 0) as [index|]; [|discriminate].
    simpl. intros [= <-]. by exists index. }
  unfold RestoreSession, setSessions; simpl.
  rewrite lookup_insert_eq. unfold hasExpired in *; simpl. rewrite Hfresh, Hfind.
  simpl. rewrite insert_insert_eq, <- Hmissed. by destruct session.
Qed.

End Laws.

Import scenario.

(** A sweep at 10 s of the buffer of three packets: the packet of 8 s is the one that leaves. *)
Lemma cleaner_pass_witness :
  packets (cleaner (seconds 10) mixedBuffer) = [packetAtZero] ++ [packetAtOne] ∧
  (∀ pid s, sessions (cleaner (seconds 10) mixedBuffer) !! pid = Some s ↔
            sessions mixedBuffer !! pid = Some s ∧
            ¬ (sessionWithTimestamp.DisconnectedAt s +
               maxDisconnectDuration mixedBuffer < seconds 10)%Z) ∧
  maxDisconnectDuration (cleaner (seconds 10) mixedBuffer) =
    maxDisconnectDuration mixedBuffer ∧
  yeaster (cleaner (seconds 10) mixedBuffer) = yeaster mixedBuffer ∧
  inMemoryAdapter (cleaner (seconds 10) mixedBuffer) = inMemoryAdapter mixedBuffer.
Proof.
  apply (cleaner_pass nat mixedBuffer (seconds 10) [packetAtZero] packetAtEight
           [packetAtOne]).
  - reflexivity.
  - vm_compute. reflexivity.
  - repeat constructor. vm_compute. intros H. discriminate H.
Defined.


(** A session persisted at 1 s and restored at 3 s from the first packet of the buffer. *)
Lemma PersistSession_RestoreSession_witness :
  ∃ missed,
    (RestoreSession (seconds 3) "p1" "A"
       (PersistSession (seconds 1) session2 afterAll)).1 =
      Some (SessionToPersist.mk "s2" "p1" ["r3"] missed) ∧
    ∀ p, p ∈ missed →
         p ∈ packets afterAll ∧
         shouldIncludePacket ["r3"] (PersistedPacket.Opts p) = true.
Proof.
  apply (PersistSession_RestoreSession nat afterAll (seconds 1) (seconds 3) session2 "A").
  exists helloPacket. split; [|reflexivity].
  apply (list_elem_of_lookup_2 _ 0). vm_compute. reflexivity.
Defined.

(** Two sessions with the private ID "p1", persisted one after the other. *)
Lemma PersistSession_latest_wins_witness :
  PersistSession (seconds 1) session2 (PersistSession 0%Z session1 afterHello) =
    PersistSession (seconds 1) session2 afterHello ∧
  sessions (PersistSession (seconds 1) session2 afterHello) !! "p1" =
    Some (sessionWithTimestamp.mk session2 (seconds 1)) ∧
  sessions (PersistSession (seconds 1) session2 afterHello) !! "p2" =
    sessions afterHello !! "p2" ∧
  packets (PersistSession (seconds 1) session2 afterHello) = packets afterHello.
Proof.
  apply (PersistSession_latest_wins nat afterHello 0%Z (seconds 1) session1 session2 "p2").
  - reflexivity.
  - simpl. intros H. discriminate H.
Defined.


(** The rooms "r1", "r2" and the same rooms in another order, with a repetition. *)
Lemma shouldIncludePacket_rooms_as_set_witness :
  shouldIncludePacket ["r1"; "r2"] (exceptRoom "r2") =
    shouldIncludePacket roomsAgain (exceptRoom "r2") ∧
  shouldIncludePacket ["r1"; "r2"] NewBroadcastOptions = true ∧
  shouldIncludePacket [] (exceptRoom "r2") =
    bool_decide (BroadcastOptions.Rooms (exceptRoom "r2") = ∅).
Proof.
  apply (shouldIncludePacket_rooms_as_set ["r1"; "r2"] roomsAgain (exceptRoom "r2")).
  intros r. unfold roomsAgain. rewrite !elem_of_cons. tauto.
Defined.

(** A restore at 6 s finds the session of instant 0 expired; the restore at 7 s finds nothing. *)
Lemma RestoreSession_expired_is_final_witness :
  let a1 := (RestoreSession (seconds 6) "p1" "A" afterHello).2 in
  RestoreSession (seconds 7) "p1" "A" a1 = (None, a1) ∧
  sessions a1 !! "p2" = sessions afterHello !! "p2" ∧
  packets a1 = packets afterHello.
Proof.
  apply (RestoreSession_expired_is_final nat afterHello (seconds 6) (seconds 7)
           "p1" "p2" "A" "A" stored1).
  - vm_compute. reflexivity.
  - vm_compute. reflexivity.
  - intros H. discriminate H.
Defined.

(** The restore of the test at 2 s, repeated at 3 s. *)
Lemma RestoreSession_repeatable_witness :
  let a1 := (RestoreSession (seconds 2) "p1" "A" afterAll).2 in
  RestoreSession (seconds 3) "p1" "A" a1 = (Some restored1, a1).
Proof.
  apply (RestoreSession_repeatable nat afterAll (seconds 2) (seconds 3) "p1" "A"
           stored1 restored1).
  - vm_compute. reflexivity.
  - vm_compute. reflexivity.
  - vm_compute. reflexivity.
Defined.

End adapter_laws.

(** ** Further laws of connections and server sockets *)

Module sio_laws.

Import sio.

Lemma last_cons_cons {A} (x : A) (l : list A) y :
  last l = Some y → last (x :: l) = Some y.
Proof. destruct l; [discriminate|done]. Qed.

Lemma last_cons_default {A} (x : A) (l : list A) :
  last (x :: l) = Some (default x (last l)).
Proof.
  revert x. induction l as [|y l IH]; intros x; [done|].
  change (last (x :: y :: l)) with (last (y :: l)). rewrite IH.
  destruct l; [done|]. simpl. by destruct (last _).
Qed.

(** X10. The connection's socket store is keyed by socket ID: a socket
    that was put is found under its ID until that ID is removed, other IDs
    are not touched, and [GetAll] lists each stored socket, one entry per
    ID. *)
Theorem serverSocketStore_laws (s : gmap string serverSocket) ss sid :
  sid ≠ id ss →
  serverSocketStore.Get (id ss) (serverSocketStore.Put ss s) = Some ss ∧
  serverSocketStore.Get sid (serverSocketStore.Put ss s) = serverSocketStore.Get sid s ∧
  serverSocketStore.Get sid (serverSocketStore.Remove sid s) = None ∧
  serverSocketStore.Get (id ss)
    (serverSocketStore.Remove sid (serverSocketStore.Put ss s)) = Some ss ∧
  length (serverSocketStore.GetAll s) = size s ∧
  (∀ x, x ∈ serverSocketStore.GetAll s ↔ ∃ k, serverSocketStore.Get k s = Some x).
Proof.
  intros Hne. unfold serverSocketStore.Get, serverSocketStore.Put,
    serverSocketStore.Remove, serverSocketStore.GetAll.
  rewrite lookup_insert_eq, lookup_delete_eq.
  rewrite lookup_insert_ne by done.
  rewrite lookup_delete_ne by done. rewrite lookup_insert_eq.
  rewrite length_fmap, length_map_to_list.
  repeat split; try done.
  - intros Hx. apply list_elem_of_fmap in Hx as ([k y] & -> & Hky).
    exists k. by apply elem_of_map_to_list.
  - intros [k Hk]. apply list_elem_of_fmap. exists (k, x).
    split; [done|]. by apply elem_of_map_to_list.
Qed.

Section WithHandlers.

Variable Encode : parser.PacketHeader → payload → option (list string).
Variable add : Namespace → string → option string → serverSocket + string.
Variable GetHandlers : string → string → list eventHandler.
Variable ackInputArgs : ackHandler → list Kind.
Variable ackCall : ackHandler → list any → option string.

(** X11. [sendDataPacket] panics in exactly three cases: the event name is
    reserved, the final value is nil, or the final value is a function and
    the socket has no ack table. *)
Theorem sendDataPacket_panics_iff typ eventName v s :
  (∃ msg, sendDataPacket Encode typ eventName v s = Panic msg) ↔
  IsEventReservedForServer eventName = true ∨
  last v = Some AnyNil ∨
  ((∃ f, last v = Some (AnyFunc f)) ∧ acks s = None).
Proof.
  unfold sendDataPacket.
  destruct (IsEventReservedForServer eventName); [split; eauto|].
  rewrite last_cons_default.
  unfold encodeAndSend.
  destruct (last v) as [x|] eqn:Hlast; simpl.
  - destruct x; simpl.
    + split; eauto.
    + destruct (Encode _ _); split;
        try (intros [msg H]; discriminate H);
        intros [H|[H|[[f H] _]]]; discriminate H.
    + destruct (Encode _ _); split;
        try (intros [msg H]; discriminate H);
        intros [H|[H|[[f H] _]]]; discriminate H.
    + destruct (Encode _ _); split;
        try (intros [msg H]; discriminate H);
        intros [H|[H|[[f H] _]]]; discriminate H.
    + destruct (acks s) as [m|].
      * destruct (Encode _ _); split;
          try (intros [msg H]; discriminate H);
          intros [H|[H|[_ H]]]; discriminate H.
      * split; eauto 10.
  - destruct (Encode _ _); split;
      try (intros [msg H]; discriminate H);
      intros [H|[H|[[f H] _]]]; discriminate H.
Qed.

(** X12. When the event name is not reserved and the final value is
    neither nil nor a function, [sendDataPacket] leaves the socket as it
    is, ack table and counter included, and sends the encoding of the event
    name followed by all values under a header without ack ID; this needs no
    ack table. *)
Theorem sendDataPacket_without_callback typ eventName v s :
  IsEventReservedForServer eventName = false →
  (∀ x, last v = Some x → x ≠ AnyNil ∧ ∀ f, x ≠ AnyFunc f) →
  sendDataPacket Encode typ eventName v s =
  Ok (s, default []
           (Encode (parser.mkHeader typ (nsp s) None)
                   (PayloadValues (AnyString eventName :: v)))).
Proof.
  intros Hres Hlast. unfold sendDataPacket. rewrite Hres, last_cons_default.
  unfold encodeAndSend.
  destruct (last v) as [x|]; simpl.
  - destruct (Hlast x eq_refl) as [Hnil Hfun].
    destruct x as [|b|z|str|g]; simpl; try done;
      try (by destruct (Encode _ _)).
    by destruct (Hfun g).
  - by destruct (Encode _ _).
Qed.

(** X13. While the counter does not wrap, [sendDataPacket] keeps every
    outstanding ack ID below the counter, never lowers the counter and
    never replaces or removes an outstanding ack. *)
Theorem sendDataPacket_keeps_acks typ eventName v s s' buffers :
  acksBelowCounter s →
  (ackID s + 1 < uint64_modulus)%Z →
  sendDataPacket Encode typ eventName v s = Ok (s', buffers) →
  acksBelowCounter s' ∧ (ackID s ≤ ackID s')%Z ∧
  ∀ m k h, acks s = Some m → m !! k = Some h →
           ∃ m', acks s' = Some m' ∧ m' !! k = Some h.
Proof.
  intros [Hpos Hinv] Hwrap. unfold sendDataPacket, encodeAndSend.
  destruct (IsEventReservedForServer eventName); [discriminate|].
  assert (∀ h w, match Encode h (PayloadValues w) with
                 | Some b => Ok (s, b) | None => Ok (s, []) end = Ok (s', buffers) →
          acksBelowCounter s' ∧ (ackID s ≤ ackID s')%Z ∧
          ∀ m k h, acks s = Some m → m !! k = Some h →
                   ∃ m', acks s' = Some m' ∧ m' !! k = Some h) as Hsame.
  { intros h w Hw.
    assert (s' = s) as -> by (destruct (Encode h _); by injection Hw).
    split; [by split|split; [lia|eauto]]. }
  destruct (last _) as [x|]; [|by apply Hsame].
  destruct x as [|b|z|str|f]; simpl; try (by apply Hsame); [discriminate|].
  destruct (acks s) as [m|] eqn:Hm; [|discriminate].
  intros Hok.
  assert (s' = mkServerSocket (id s) (nsp s)
                 (Some (<[ackID s := newAckHandler (AnyFunc f)]> m))
                 ((ackID s + 1) mod uint64_modulus)) as ->
    by (destruct (Encode _ _); by injection Hok).
  rewrite Z.mod_small by lia.
  split; [split|split]; simpl; try lia.
  - intros m' k [= <-] [h Hk].
    destruct (decide (ackID s = k)) as [<-|Hne]; [lia|].
    rewrite lookup_insert_ne in Hk by done.
    specialize (Hinv m k eq_refl (mk_is_Some _ _ Hk)). lia.
  - intros m0 k h [= <-] Hk. eexists. split; [done|].
    rewrite lookup_insert_ne; [done|].
    intros <-. specialize (Hinv m (ackID s) eq_refl (mk_is_Some _ _ Hk)). lia.
Qed.

(** X14. An ack round trip: after [sendDataPacket] took the callback [f]
    under a free ID, the ACK packet with that ID calls [f] with the decoded
    values and takes it out of the table again. *)
Theorem sendDataPacket_onAck typ eventName v f s m s' buffers decode values :
  IsEventReservedForServer eventName = false →
  acks s = Some m →
  m !! ackID s = None →
  sendDataPacket Encode typ eventName (v ++ [AnyFunc f]) s = Ok (s', buffers) →
  decode (ackInputArgs (newAckHandler (AnyFunc f))) = Some values →
  length values = length (ackInputArgs (newAckHandler (AnyFunc f))) →
  onAck ackInputArgs ackCall
        (parser.mkHeader parser.PacketTypeAck (nsp s) (Some (ackID s))) decode s' =
  (mkServerSocket (id s) (nsp s) (Some m) ((ackID s + 1) mod uint64_modulus),
   AckCalled (newAckHandler (AnyFunc f)) values ::
   match ackCall (newAckHandler (AnyFunc f)) values with
   | Some err => [OnError (ErrCall err)]
   | None => []
   end).
Proof.
  intros Hres Hm Hfree Hsend Hdec Hlen.
  rewrite (sio_properties.sendDataPacket_ack Encode typ eventName v f s m Hres Hm)
    in Hsend.
  unfold encodeAndSend in Hsend.
  assert (s' = mkServerSocket (id s) (nsp s)
                 (Some (<[ackID s := newAckHandler (AnyFunc f)]> m))
                 ((ackID s + 1) mod uint64_modulus)) as ->
    by (destruct (Encode _ _); by injection Hsend).
  unfold onAck; simpl. rewrite lookup_insert_eq, Hdec.
  rewrite bool_decide_eq_true_2 by done.
  rewrite delete_insert_id by done.
  by destruct (ackCall _ _).
Qed.

Lemma onAck_not_found header decode s i :
  parser.ID header = Some i →
  (∀ m, acks s = Some m → m !! i = None) →
  onAck ackInputArgs ackCall header decode s = (s, [OnError (ErrAckNotFound i)]).
Proof.
  intros Hid Hnone. unfold onAck. rewrite Hid.
  destruct (acks s) as [m|]; [|done]. by rewrite (Hnone m eq_refl).
Qed.

Lemma onAck_found header decode s i m ack :
  parser.ID header = Some i →
  acks s = Some m →
  m !! i = Some ack →
  ∃ e, onAck ackInputArgs ackCall header decode s =
         (mkServerSocket (id s) (nsp s) (Some (delete i m)) (ackID s), e) ∧
       ∀ h values, AckCalled h values ∈ e → h = ack.
Proof.
  intros Hid Hm Hi. unfold onAck. rewrite Hid, Hm, Hi.
  destruct (decode (ackInputArgs ack)) as [values|].
  - case_bool_decide as Hlen; [destruct (ackCall ack values)|];
      (eexists; split; [done|]); intros h vs H;
      repeat (apply elem_of_cons in H as [H|H]; [try discriminate H|]);
      try (by apply elem_of_nil in H); by injection H as <- <-.
  - eexists. split; [done|]. intros h vs H.
    apply list_elem_of_singleton in H. discriminate H.
Qed.

(** X15. [onAck] changes nothing of a socket but its ack table, from which
    it deletes the ID of the header, also when decoding fails afterwards;
    it only ever calls the callback that was stored under that ID; and a
    second [onAck] for the same header calls nothing. *)
Theorem onAck_consumes header decode decode' s :
  let r := onAck ackInputArgs ackCall header decode s in
  id r.1 = id s ∧ nsp r.1 = nsp s ∧ ackID r.1 = ackID s ∧
  acks r.1 = match parser.ID header with
             | Some i => delete i <$> acks s
             | None => acks s
             end ∧
  (∀ h values, AckCalled h values ∈ r.2 →
     ∃ i m, parser.ID header = Some i ∧ acks s = Some m ∧ m !! i = Some h) ∧
  (∀ h values,
     AckCalled h values ∉ (onAck ackInputArgs ackCall header decode' r.1).2).
Proof.
  assert (∀ (e : socketError) h values, AckCalled h values ∉ [OnError e]) as Herr.
  { intros e h values H. apply list_elem_of_singleton in H. discriminate H. }
  destruct (parser.ID header) as [i|] eqn:Hid.
  2:{ assert (∀ d s0, onAck ackInputArgs ackCall header d s0 = (s0, [OnError ErrNilID]))
        as Hnil by (intros d s0; unfold onAck; by rewrite Hid).
      cbv zeta. rewrite !Hnil. cbn [fst snd]. rewrite ?Hnil. cbn [fst snd].
      repeat split; try done.
      intros h values H. by apply Herr in H. }
  destruct (acks s) as [m|] eqn:Hm.
  2:{ assert (∀ d, onAck ackInputArgs ackCall header d s = (s, [OnError (ErrAckNotFound i)]))
        as Hnone by (intros d; apply onAck_not_found; [done|]; intros m; by rewrite Hm).
      cbv zeta. rewrite !Hnone. cbn [fst snd]. rewrite ?Hnone, ?Hm. cbn [fst snd].
      repeat split; try done.
      intros h values H. by apply Herr in H. }
  destruct (m !! i) as [ack|] eqn:Hi.
  - destruct (onAck_found header decode s i m ack Hid Hm Hi) as (e & -> & He).
    cbv zeta. cbn [fst snd]. repeat split; try done.
    + intros h values H. apply He in H as ->. eauto.
    + intros h values. rewrite (onAck_not_found header decode' _ i Hid).
      * apply Herr.
      * simpl. intros m0 [= <-]. apply lookup_delete_eq.
  - assert (∀ d, onAck ackInputArgs ackCall header d s = (s, [OnError (ErrAckNotFound i)]))
      as Hnone.
    { intros d. apply onAck_not_found; [done|]. intros m0. rewrite Hm. by intros [= <-]. }
    cbv zeta. rewrite !Hnone. cbn [fst snd]. rewrite ?Hnone, ?Hm. cbn [fst snd fmap option_fmap option_map].
    rewrite delete_id by done. repeat split; try done.
    intros h values H. by apply Herr in H.
Qed.





(** X18. Sockets are stored under their ID and looked up under the
    namespace of the packet: once [connect] has returned, a packet that is
    not a CONNECT and names a namespace under which the connection held no
    socket before is dropped without any effect, unless the ID of a socket
    equals that namespace. *)
Theorem packet_after_connect_is_dropped header header' eventName values
    decoded decode srv c srv' c' :
  connect Encode add header (Some values) srv c = Ok (srv', c') →
  (∀ n cid auth socket,
     add n cid auth = inl socket → id socket ≠ parser.Namespace header') →
  sockets c !! parser.Namespace header' = None →
  parser.Namespace header' ≠ EmptyString →
  parser.Typ header' ≠ parser.PacketTypeConnect →
  onFinishEIOPacket Encode add GetHandlers ackInputArgs ackCall
                    header' eventName decoded decode srv' c' =
  Ok (srv', c', []).
Proof.
  intros Hconn Hid Hnone Hns Htyp.
  assert (sockets c' !! parser.Namespace header' = None) as Hnone'.
  { revert Hconn. unfold connect.
    destruct (Of (parser.Namespace header) srv) as [n srv1].
    destruct (add n (conn_id c) _) as [socket|err] eqn:Hadd.
    - assert (∀ bs, sockets (sendBuffers bs
                (mkServerConn (conn_id c) (<[id socket := socket]> (sockets c))
                              (<[Name n := n]> (nsps c)) (outbox c)))
              !! parser.Namespace header' = None) as Hs.
      { intros [|b bs]; simpl; rewrite lookup_insert_ne; eauto. }
      destruct (Encode _ _); intros [= <- <-]; [apply Hs|].
      simpl. rewrite lookup_insert_ne; eauto.
    - destruct (Encode _ _) as [[|b bs]|]; [| |discriminate];
        by intros [= <- <-]. }
  unfold onFinishEIOPacket.
  rewrite (bool_decide_eq_false_2 (parser.Namespace header' = EmptyString)) by done.
  cbv zeta iota.
  rewrite bool_decide_eq_false_2 by done.
  unfold serverSocketStore.Get. by rewrite Hnone'.
Qed.

End WithHandlers.

Import scenario.

(** A store with the socket "socket-1", to which "socket-2" is put. *)
Lemma serverSocketStore_laws_witness :
  let s : gmap string serverSocket := {[ "socket-1" := socketWithAcks ]} in
  serverSocketStore.Get "socket-2" (serverSocketStore.Put otherSocket s) =
    Some otherSocket ∧
  serverSocketStore.Get "socket-1" (serverSocketStore.Put otherSocket s) =
    serverSocketStore.Get "socket-1" s ∧
  serverSocketStore.Get "socket-1" (serverSocketStore.Remove "socket-1" s) = None ∧
  serverSocketStore.Get "socket-2"
    (serverSocketStore.Remove "socket-1" (serverSocketStore.Put otherSocket s)) =
    Some otherSocket ∧
  length (serverSocketStore.GetAll s) = size s ∧
  (∀ x, x ∈ serverSocketStore.GetAll s ↔ ∃ k, serverSocketStore.Get k s = Some x).
Proof.
  apply (serverSocketStore_laws {[ "socket-1" := socketWithAcks ]} otherSocket "socket-1").
  simpl. intros H. discriminate H.
Defined.

(** [Emit("hello", "world")] on a socket as [newServerSocket] returns it. *)
Lemma sendDataPacket_without_callback_witness :
  sendDataPacket oneBuffer parser.PacketTypeEvent "hello" [AnyString "world"] freshSocket =
  Ok (freshSocket, ["/"]).
Proof.
  apply (sendDataPacket_without_callback oneBuffer parser.PacketTypeEvent "hello"
           [AnyString "world"] freshSocket).
  - reflexivity.
  - intros x H. injection H as <-. split; [intros H; discriminate H|].
    intros f H. discriminate H.
Defined.

(** [Emit("hello", "world", f)] on a socket with one outstanding ack. *)
Lemma sendDataPacket_keeps_acks_witness :
  let s' := mkServerSocket "socket-1" "/"
              (Some (<[1%Z := newAckHandler (AnyFunc 8)]>
                       {[ 0%Z := newAckHandler (AnyFunc 7) ]})) 2 in
  acksBelowCounter s' ∧ (ackID socketWithAcks ≤ ackID s')%Z ∧
  ∀ m k h, acks socketWithAcks = Some m → m !! k = Some h →
           ∃ m', acks s' = Some m' ∧ m' !! k = Some h.
Proof.
  apply (sendDataPacket_keeps_acks oneBuffer parser.PacketTypeEvent "hello"
           [AnyString "world"; AnyFunc 8] socketWithAcks _ ["/"]).
  - split; [vm_compute; intros H; discriminate H|].
    intros m k H. injection H as <-. intros [h Hk].
    apply lookup_singleton_Some in Hk as [<- _]. split; vm_compute.
    + intros H. discriminate H.
    + reflexivity.
  - vm_compute. reflexivity.
  - vm_compute. reflexivity.
Defined.

(** The ACK with ID 1 after that [Emit]. *)
Lemma sendDataPacket_onAck_witness :
  onAck oneString callOk
        (parser.mkHeader parser.PacketTypeAck "/" (Some 1%Z)) decodeWorld
        (mkServerSocket "socket-1" "/"
           (Some (<[1%Z := newAckHandler (AnyFunc 8)]>
                    {[ 0%Z := newAckHandler (AnyFunc 7) ]})) 2) =
  (mkServerSocket "socket-1" "/" (Some {[ 0%Z := newAckHandler (AnyFunc 7) ]}) 2,
   [AckCalled (newAckHandler (AnyFunc 8)) [AnyString "world"]]).
Proof.
  apply (sendDataPacket_onAck oneBuffer oneString callOk parser.PacketTypeEvent
           "hello" [AnyString "world"] 8 socketWithAcks
           {[ 0%Z := newAckHandler (AnyFunc 7) ]} _ ["/"] decodeWorld
           [AnyString "world"]).
  - reflexivity.
  - reflexivity.
  - vm_compute. reflexivity.
  - vm_compute. reflexivity.
  - reflexivity.
  - reflexivity.
Defined.


(** After the CONNECT to [/foo] was accepted, an EVENT for [/foo] finds no socket: the socket is stored under "socket-1". *)
Lemma packet_after_connect_is_dropped_witness :
  onFinishEIOPacket oneBuffer acceptAll twoHandlers oneString callOk
                    eventForFoo "hello" None decodeWorld
                    afterConnect.1 afterConnect.2 =
  Ok (afterConnect.1, afterConnect.2, []).
Proof.
  apply (packet_after_connect_is_dropped oneBuffer acceptAll twoHandlers oneString
           callOk connectFoo eventForFoo "hello" [] None decodeWorld
           strictServer freshConn afterConnect.1 afterConnect.2).
  - vm_compute. reflexivity.
  - intros n cid auth socket H. injection H as <-. simpl. intros H. discriminate H.
  - reflexivity.
  - simpl. intros H. discriminate H.
  - simpl. intros H. discriminate H.
Defined.

End sio_laws.

(** ** Further laws of the Engine.IO server *)

Module eio_laws.

Import eio.

(** X19. [Run] refuses a closed server.  On an open one it accepts what
    [NewServer] built iff each configured ping interval, ping timeout and
    upgrade timeout is zero (then the default is taken) or at least one
    second; a nil configuration is accepted.  The buffer limit that
    [NewServer] sets is zero exactly when the limit is disabled. *)
Theorem NewServer_Run config s :
  let ok d := (d = 0 ∨ 1 * time.Second ≤ d)%Z in
  Run true s = Some ErrServerClosed ∧
  Run false (NewServer None) = None ∧
  (Run false (NewServer (Some config)) = None ↔
     ok (ServerConfig.PingInterval config) ∧
     ok (ServerConfig.PingTimeout config) ∧
     ok (ServerConfig.UpgradeTimeout config)) ∧
  (fields.maxBufferSize (NewServer (Some config)) = 0%Z ↔
     ServerConfig.DisableMaxBufferSize config = true).
Proof.
  cbv zeta. split; [done|]. split; [done|]. split.
  - unfold Run, NewServer, defaultPingInterval, defaultPingTimeout,
      defaultUpgradeTimeout, time.Second; simpl.
    destruct config as [a pi pt ut mb dis]; simpl.
    repeat case_bool_decide; split; try discriminate; try done; try lia.
  - unfold NewServer, defaultMaxBufferSize.
    destruct config as [a pi pt ut mb dis]; simpl.
    destruct dis; [done|]. case_bool_decide; split; try discriminate; done.
Qed.

Lemma ServeHTTP_cases s r :
  (IsClosed s = true ∧ ServeHTTP s r = [WriteHeader 418]) ∨
  (IsClosed s = false ∧ Atoi (Get "EIO" (Query r)) ≠ Some 4%Z ∧
     ServeHTTP s r = writeServerError ErrorUnsupportedProtocolVersion) ∨
  (IsClosed s = false ∧ Atoi (Get "EIO" (Query r)) = Some 4%Z ∧
     Get "sid" (Query r) = EmptyString ∧ ServeHTTP s r = [HandleHandshake]) ∨
  (IsClosed s = false ∧ Atoi (Get "EIO" (Query r)) = Some 4%Z ∧
     Get "sid" (Query r) ≠ EmptyString ∧
     ∃ rest, ServeHTTP s r = StoreGet (Get "sid" (Query r)) :: rest ∧
             HandleHandshake ∉ rest).
Proof.
  unfold ServeHTTP. destruct (IsClosed s); [by left|right].
  destruct (Atoi (Get "EIO" (Query r))) as [version|]; [|by left].
  case_bool_decide as Hv.
  { left. split; [done|]. split; [|done]. intros [= ->]. by apply Hv. }
  unfold ProtocolVersion in Hv. subst version. right.
  case_bool_decide as Hsid; [by left|right].
  split; [done|]. split; [done|]. split; [done|].
  destruct (store s !! Get "sid" (Query r)) as [t|]; [case_bool_decide as Hn|];
    (eexists; split; [done|]);
    intros H; repeat (apply elem_of_cons in H as [H|H]; [discriminate H|]);
    by apply elem_of_nil in H.
Qed.

(** X20. A handshake is reached exactly by the requests to an open server
    whose [EIO] parameter parses as 4 and that carry no [sid]; such a
    request does nothing else, the store is not consulted.  Exactly a
    closed server, hence every server after [Close], answers a request with
    status 418 and nothing else. *)
Theorem ServeHTTP_reaches_handshake s r closeAll :
  let bare :=
    IsClosed s = false ∧ Atoi (Get "EIO" (Query r)) = Some 4%Z ∧
    Get "sid" (Query r) = EmptyString in
  (HandleHandshake ∈ ServeHTTP s r ↔ bare) ∧
  (ServeHTTP s r = [HandleHandshake] ↔ bare) ∧
  (ServeHTTP s r = [WriteHeader 418] ↔ IsClosed s = true) ∧
  ServeHTTP (CloseServer closeAll s) r = [WriteHeader 418].
Proof.
  cbv zeta. split; [|split; [|split]]; [| | |done].
  - destruct (ServeHTTP_cases s r)
      as [[Hc ->]|[(Hc & Hv & ->)|[(Hc & Hv & Hsid & ->)|(Hc & Hv & Hsid & rest & -> & Hrest)]]].
    + split; [|intros [? _]; congruence].
      intros H. apply list_elem_of_singleton in H. discriminate H.
    + split; [|by intros (_ & ? & _)].
      intros H. repeat (apply elem_of_cons in H as [H|H]; [discriminate H|]).
      by apply elem_of_nil in H.
    + split; [done|]. intros _. apply list_elem_of_here.
    + split; [|by intros (_ & _ & ?)].
      intros H. apply elem_of_cons in H as [H|H]; [discriminate H|done].
  - destruct (ServeHTTP_cases s r)
      as [[Hc ->]|[(Hc & Hv & ->)|[(Hc & Hv & Hsid & ->)|(Hc & Hv & Hsid & rest & -> & Hrest)]]].
    + split; [discriminate|intros [? _]; congruence].
    + split; [discriminate|by intros (_ & ? & _)].
    + done.
    + split; [discriminate|by intros (_ & _ & ?)].
  - destruct (ServeHTTP_cases s r)
      as [[Hc ->]|[(Hc & Hv & ->)|[(Hc & Hv & Hsid & ->)|(Hc & Hv & Hsid & rest & -> & Hrest)]]].
    + done.
    + split; [discriminate|congruence].
    + split; [discriminate|congruence].
    + split; [discriminate|congruence].
Qed.

(** X21. A request to an open server with [EIO=4] and a [sid]: an unknown
    [sid] is answered with status 400 and error 1, after one look-up in the
    store; a known one is served by the transport of its socket when the
    [transport] parameter names it, and is otherwise taken as an upgrade,
    which [maybeUpgrade] refuses with status 400 and error 3 unless the
    parameter is "websocket". *)
Theorem ServeHTTP_session_request s r sid :
  IsClosed s = false →
  Atoi (Get "EIO" (Query r)) = Some 4%Z →
  Get "sid" (Query r) = sid →
  sid ≠ EmptyString →
  match store s !! sid with
  | None =>
      ServeHTTP s r =
      [StoreGet sid; WriteHeader 400; WriteJSON (mkServerError 1 "Session unknown")]
  | Some t =>
      let n := Get "transport" (Query r) in
      if bool_decide (n = TName t)
      then ServeHTTP s r = [StoreGet sid; TransportServeHTTP sid]
      else ServeHTTP s r = [StoreGet sid; MaybeUpgrade sid n] ∧
           (n = "websocket" ∨
            ∀ handshake,
              maybeUpgrade t n handshake =
              inl [WriteHeader 400; WriteJSON (mkServerError 3 "Bad request")])
  end.
Proof.
  intros Hopen Hv Hsid Hne. unfold ServeHTTP. rewrite Hopen, Hv, Hsid.
  rewrite (bool_decide_eq_false_2 (4%Z ≠ ProtocolVersion)) by (intros H; by apply H).
  rewrite (bool_decide_eq_false_2 (sid = EmptyString)) by done.
  destruct (store s !! sid) as [t|]; [|done].
  cbv zeta. case_bool_decide as Hn.
  - rewrite bool_decide_eq_false_2; [done|]. intros H. by apply H.
  - rewrite bool_decide_eq_true_2 by (intros H; by apply Hn).
    split; [done|].
    destruct (decide (Get "transport" (Query r) = "websocket")) as [?|Hws];
      [by left|right].
    intros handshake. unfold maybeUpgrade. by rewrite bool_decide_eq_true_2.
Qed.

Section WithStore.

Variable Marshal : HandshakeResponse.t → option string.
Variable storeSet :
  string → Transport → gmap string Transport → option (gmap string Transport).

(** X22. The refusals of a handshake, in the order in which they are
    tried, none of which touches the store: a method other than GET is
    answered with status 400 and error 2 before the authenticator is asked;
    a request the authenticator refuses gets status 403 without a body and
    no SID is generated; a failed SID generation gets status 500; and an
    unknown transport gets status 400 and error 0, after the SID was
    generated. *)
Theorem handleHandshake_refusals s store r generated handshake sid :
  let out := handleHandshake Marshal storeSet s store r generated handshake in
  (Method r ≠ "GET" →
     out = ([Write (WriteHeader 400);
             Write (WriteJSON (mkServerError 2 "Bad handshake method"))], store)) ∧
  (Method r = "GET" → fields.authenticator s r = false →
     out = ([Authenticate; Write (WriteHeader 403)], store)) ∧
  (Method r = "GET" → fields.authenticator s r = true → generated = None →
     out = ([Authenticate; GenerateSID; Write (WriteHeader 500);
             ServerOnError "generateSID"], store)) ∧
  (Method r = "GET" → fields.authenticator s r = true → generated = Some sid →
     Get "transport" (Query r) ≠ "polling" →
     Get "transport" (Query r) ≠ "websocket" →
     out = ([Authenticate; GenerateSID; Write (WriteHeader 400);
             Write (WriteJSON (mkServerError 0 "Transport unknown"))], store)).
Proof.
  cbv zeta. unfold handleHandshake. repeat split.
  - intros Hm. by rewrite bool_decide_eq_true_2.
  - intros Hm Ha. rewrite bool_decide_eq_false_2 by (intros H; by apply H).
    by rewrite Ha.
  - intros Hm Ha ->. rewrite bool_decide_eq_false_2 by (intros H; by apply H).
    by rewrite Ha.
  - intros Hm Ha -> Hp Hw. rewrite bool_decide_eq_false_2 by (intros H; by apply H).
    rewrite Ha. simpl.
    rewrite (bool_decide_eq_false_2 (Get "transport" (Query r) = "polling")) by done.
    by rewrite (bool_decide_eq_false_2 (Get "transport" (Query r) = "websocket")).
Qed.

(** X23. Whenever a handshake gets as far as the handshake of a new
    transport, the method was GET, the authenticator agreed, the transport
    is the polling or the websocket transport that the request names, and
    the OPEN packet is the text packet of the marshalled response with the
    generated SID, with "websocket" as the only upgrade for polling and no
    upgrade for websocket, and with ping interval and ping timeout in whole
    milliseconds; a websocket transport supports binary iff the request has
    no [b64] parameter. *)
Theorem handleHandshake_open_packet s store r generated handshake n binary p :
  TransportHandshake n binary p ∈
    (handleHandshake Marshal storeSet s store r generated handshake).1 →
  Method r = "GET" ∧ fields.authenticator s r = true ∧
  n = Get "transport" (Query r) ∧ (n = "polling" ∨ n = "websocket") ∧
  binary = (if bool_decide (n = "polling") then None
            else Some (bool_decide (Get "b64" (Query r) = EmptyString))) ∧
  ∃ sid data,
    generated = Some sid ∧ p = mkPacket PacketTypeOpen false data ∧
    Marshal (HandshakeResponse.mk sid
               (if bool_decide (n = "polling") then ["websocket"] else [])
               (fields.pingInterval s ÷ Millisecond)
               (fields.pingTimeout s ÷ Millisecond)) = Some data.
Proof.
  assert (∀ l : list handshakeAction,
            Forall (λ a, ∀ n b p, a ≠ TransportHandshake n b p) l →
            TransportHandshake n binary p ∉ l) as Hnot.
  { intros l Hl H. rewrite Forall_forall in Hl. by apply (Hl _ H n binary p). }
  unfold handleHandshake.
  case_bool_decide as Hm.
  { intros H. exfalso. revert H. apply Hnot. by repeat constructor. }
  destruct (fields.authenticator s r) eqn:Ha; simpl.
  2:{ intros H. exfalso. revert H. apply Hnot. by repeat constructor. }
  destruct generated as [sid|]; simpl.
  2:{ intros H. exfalso. revert H. apply Hnot. by repeat constructor. }
  assert (∀ upgrades b0 out,
            (match newHandshakePacket Marshal s sid upgrades with
             | Some handshakePacket =>
                 if negb handshake
                 then ([Authenticate; GenerateSID;
                        TransportHandshake (Get "transport" (Query r)) b0 handshakePacket],
                       store)
                 else
                   match storeSet sid (mkTransport (Get "transport" (Query r)) [] false) store with
                   | Some store' =>
                       ([Authenticate; GenerateSID;
                         TransportHandshake (Get "transport" (Query r)) b0 handshakePacket;
                         OnSocket sid upgrades;
                         PostHandshake (Get "transport" (Query r))], store')
                   | None =>
                       ([Authenticate; GenerateSID;
                         TransportHandshake (Get "transport" (Query r)) b0 handshakePacket;
                         OnSocket sid upgrades;
                         Write (WriteHeader StatusInternalServerError);
                         ServerOnError "sid's overlap"; SocketClose sid], store)
                   end
             | None =>
                 ([Authenticate; GenerateSID;
                   Write (WriteHeader StatusInternalServerError);
                   ServerOnError "newHandshakePacket failed"], store)
             end) = out →
            TransportHandshake n binary p ∈ out.1 →
            n = Get "transport" (Query r) ∧ binary = b0 ∧
            ∃ data, p = mkPacket PacketTypeOpen false data ∧
                    Marshal (HandshakeResponse.mk sid upgrades
                               (fields.pingInterval s ÷ Millisecond)
                               (fields.pingTimeout s ÷ Millisecond)) = Some data)
    as Hmain.
  { intros upgrades b0 out <-. unfold newHandshakePacket, NewPacket.
    destruct (Marshal _) as [data|].
    2:{ intros H. exfalso. revert H. apply Hnot. by repeat constructor. }
    destruct (negb handshake); [|destruct (storeSet _ _ _)]; simpl;
      intros H;
      repeat (apply elem_of_cons in H as [H|H];
              [try discriminate H; injection H as -> -> ->; by eauto|]);
      by apply elem_of_nil in H. }
  case_bool_decide as Hp.
  - intros H. destruct (Hmain _ _ _ eq_refl H) as (-> & -> & data & -> & Hd).
    rewrite Hp. repeat split; try done; [by left|]. by exists sid, data.
  - case_bool_decide as Hw.
    + intros H. destruct (Hmain _ _ _ eq_refl H) as (-> & -> & data & -> & Hd).
      rewrite (bool_decide_eq_false_2 (Get "transport" (Query r) = "polling")) by done.
      repeat split; try done; [by right|]. by exists sid, data.
    + intros H. exfalso. revert H. apply Hnot. by repeat constructor.
Qed.


End WithStore.




(** X26. A packet on the new transport that is neither PING nor UPGRADE,
    before any UPGRADE and before the timer expired: the new transport is
    closed, nothing is sent on either transport, the socket stays on the
    old transport and gets one error; the completion signal is not fired,
    so the timer still expires later and then reports its own error to the
    server. *)
Theorem upgrade_invalid_packet socketTransport u0 events p :
  maybeUpgrade socketTransport "websocket" true = inr u0 →
  Forall (λ e, receivesUpgrade e = false) events →
  Forall (λ e, isUpgradeTimeout e = false) events →
  Typ p ≠ PacketTypePing →
  Typ p ≠ PacketTypeUpgrade →
  let u := run events u0 in
  let u' := onPacket p u in
  Closed (t u') = true ∧ Sent (t u') = Sent (t u) ∧ old u' = old u ∧
  active u' = OldTransport ∧ done u' = false ∧
  length (socketOnError u') = S (length (socketOnError u)) ∧
  serverOnError u' = serverOnError u ∧
  serverOnError (onUpgradeTimeout u') =
    serverOnError u ++ ["eio: upgrade failed: upgradeTimeout exceeded"].
Proof.
  intros Hinit Hnu Hnt Hping Hupg u u'.
  assert (active u0 = OldTransport ∧ done u0 = false ∧ once u0 = false ∧
          timerExpired u0 = false) as (Ha0 & Hd0 & Ho0 & Ht0).
  { unfold maybeUpgrade in Hinit. simpl in Hinit. by injection Hinit as <-. }
  destruct (eio_properties.run_pending events u0 Hnu) as (Ha & Hd & Ho); [done|].
  pose proof (eio_properties.run_timer events u0 Hnt Ht0) as Ht.
  fold u in Ha, Hd, Ho, Ht.
  assert (u' = mkUpgrade (old u) (Close (t u)) (active u) (done u) (once u)
                 (timerExpired u) (serverOnError u)
                 (socketOnError u ++ ["upgrade failed: invalid packet received"]))
    as ->.
  { unfold u', onPacket. destruct p as [ty b d]. simpl in *.
    by destruct ty. }
  unfold onUpgradeTimeout; simpl. rewrite Hd, Ht; simpl.
  rewrite length_app; simpl.
  repeat split; try done. lia.
Qed.



Import scenario.

(** A polling request of the session "sid-1", whose socket is on the polling transport. *)
Lemma ServeHTTP_session_request_witness :
  ServeHTTP serverWithSocket pollRequest = [StoreGet "sid-1"; TransportServeHTTP "sid-1"].
Proof.
  apply (ServeHTTP_session_request serverWithSocket pollRequest "sid-1").
  - reflexivity.
  - vm_compute. reflexivity.
  - reflexivity.
  - intros H. discriminate H.
Defined.

(** A websocket handshake with [b64=1] on a server with default settings. *)
Lemma handleHandshake_open_packet_witness :
  Method handshakeRequest = "GET" ∧
  fields.authenticator (NewServer None) handshakeRequest = true ∧
  "websocket" = Get "transport" (Query handshakeRequest) ∧
  ("websocket" = "polling" ∨ "websocket" = "websocket") ∧
  Some false = Some (bool_decide (Get "b64" (Query handshakeRequest) = EmptyString)) ∧
  ∃ sid data,
    Some "sid-2" = Some sid ∧
    mkPacket PacketTypeOpen false "sid-2" = mkPacket PacketTypeOpen false data ∧
    marshalSID (HandshakeResponse.mk sid []
                  (fields.pingInterval (NewServer None) ÷ Millisecond)
                  (fields.pingTimeout (NewServer None) ÷ Millisecond)) = Some data.
Proof.
  apply (handleHandshake_open_packet marshalSID setIfFree (NewServer None)
           {[ "sid-1" := pollingTransport ]} handshakeRequest (Some "sid-2") true
           "websocket" (Some false) (mkPacket PacketTypeOpen false "sid-2")).
  apply (list_elem_of_lookup_2 _ 2). vm_compute. reflexivity.
Defined.


(** A MESSAGE packet on the new transport after the probe. *)
Lemma upgrade_invalid_packet_witness :
  let u := run [Receive probe] pollingUpgrade in
  let u' := onPacket messagePacket u in
  Closed (t u') = true ∧ Sent (t u') = Sent (t u) ∧ old u' = old u ∧
  active u' = OldTransport ∧ done u' = false ∧
  length (socketOnError u') = S (length (socketOnError u)) ∧
  serverOnError u' = serverOnError u ∧
  serverOnError (onUpgradeTimeout u') =
    serverOnError u ++ ["eio: upgrade failed: upgradeTimeout exceeded"].
Proof.
  apply (upgrade_invalid_packet pollingTransport pollingUpgrade [Receive probe]
           messagePacket).
  - reflexivity.
  - repeat constructor.
  - repeat constructor.
  - simpl. intros H. discriminate H.
  - simpl. intros H. discriminate H.
Defined.

(** The four refusals: a POST, a refusing authenticator, a failed SID generation and the transport "pigeon". *)
Lemma handleHandshake_refusals_witness :
  let store : gmap string Transport := {[ "sid-1" := pollingTransport ]} in
  handleHandshake marshalSID setIfFree (NewServer None) store postRequest
                  (Some "sid-2") true =
    ([Write (WriteHeader 400);
      Write (WriteJSON (mkServerError 2 "Bad handshake method"))], store) ∧
  handleHandshake marshalSID setIfFree refusingServer store handshakeRequest
                  (Some "sid-2") true =
    ([Authenticate; Write (WriteHeader 403)], store) ∧
  handleHandshake marshalSID setIfFree (NewServer None) store handshakeRequest
                  None true =
    ([Authenticate; GenerateSID; Write (WriteHeader 500);
      ServerOnError "generateSID"], store) ∧
  handleHandshake marshalSID setIfFree (NewServer None) store carrierPigeonRequest
                  (Some "sid-2") true =
    ([Authenticate; GenerateSID; Write (WriteHeader 400);
      Write (WriteJSON (mkServerError 0 "Transport unknown"))], store).
Proof.
  pose (store := ({[ "sid-1" := pollingTransport ]} : gmap string Transport)).
  split; [|split; [|split]].
  - apply (proj1 (handleHandshake_refusals marshalSID setIfFree (NewServer None)
                    store postRequest (Some "sid-2") true "sid-2")).
    simpl. intros H. discriminate H.
  - apply (proj1 (proj2 (handleHandshake_refusals marshalSID setIfFree refusingServer
                           store handshakeRequest (Some "sid-2") true "sid-2")));
      reflexivity.
  - apply (proj1 (proj2 (proj2 (handleHandshake_refusals marshalSID setIfFree
                                  (NewServer None) store handshakeRequest None true
                                  "sid-2")))); reflexivity.
  - apply (proj2 (proj2 (proj2 (handleHandshake_refusals marshalSID setIfFree
                                  (NewServer None) store carrierPigeonRequest
                                  (Some "sid-2") true "sid-2")))).
    + reflexivity.
    + reflexivity.
    + reflexivity.
    + vm_compute. intros H. discriminate H.
    + vm_compute. intros H. discriminate H.
Defined.


End eio_laws.

(** ** Laws of the packet loop and of the websocket client transport *)

Module transport_laws.

Section WithParser.

Import sio_conn.

Variable State : Type.
Variable parserAdd : string → State → State * bool.

Lemma onEIOPacketLoop_app (pre l : list eio.Packet) (st : State) :
  onEIOPacketLoop parserAdd (pre ++ l) st =
  if (onEIOPacketLoop parserAdd pre st).2 then onEIOPacketLoop parserAdd pre st
  else onEIOPacketLoop parserAdd l (onEIOPacketLoop parserAdd pre st).1.
Proof.
  revert st. induction pre as [|q pre IH]; intros st; simpl; [done|].
  case_bool_decide as Hq; [|apply IH].
  destruct (parserAdd (eio.Data q) st) as [st' err]. destruct err; [done|apply IH].
Qed.

Lemma onEIOPacketLoop_filter (l : list eio.Packet) (st : State) :
  onEIOPacketLoop parserAdd
    (filter (λ q, eio.Typ q = eio.PacketTypeMessage) l) st =
  onEIOPacketLoop parserAdd l st.
Proof.
  revert st. induction l as [|q l IH]; intros st; [done|].
  destruct (decide (eio.Typ q = eio.PacketTypeMessage)) as [Hq|Hq].
  - rewrite filter_cons_True by done. simpl.
    rewrite bool_decide_eq_true_2 by done.
    destruct (parserAdd (eio.Data q) st) as [st' err]. destruct err; [done|apply IH].
  - rewrite filter_cons_False by done. simpl.
    rewrite bool_decide_eq_false_2 by done. apply IH.
Qed.

(** X28. Of a batch of Engine.IO packets only the MESSAGE packets reach
    the parser, the others have no effect; and when the parser returns an
    error for a packet, the connection is left as that call left it and the
    packets that follow in the batch are never looked at. *)
Theorem onEIOPacket_batch (packets pre post : list eio.Packet) p st :
  eio.Typ p = eio.PacketTypeMessage →
  (onEIOPacketLoop parserAdd pre st).2 = false →
  (parserAdd (eio.Data p) (onEIOPacket parserAdd pre st)).2 = true →
  onEIOPacket parserAdd (pre ++ p :: post) st =
    (parserAdd (eio.Data p) (onEIOPacket parserAdd pre st)).1 ∧
  onEIOPacket parserAdd
    (filter (λ q, eio.Typ q = eio.PacketTypeMessage) packets) st =
    onEIOPacket parserAdd packets st.
Proof.
  intros Hp Hpre Herr. unfold onEIOPacket in *. split.
  - rewrite onEIOPacketLoop_app, Hpre. simpl.
    rewrite bool_decide_eq_true_2 by done.
    destruct (parserAdd (eio.Data p) _) as [st' err]. simpl in *. by subst err.
  - by rewrite onEIOPacketLoop_filter.
Qed.

End WithParser.

Section WithCodes.

Import websocket.

Variable expectedCloseCodes : list Z.

Lemma Send_once packets t :
  once t = true →
  once (Send expectedCloseCodes packets t) = true ∧
  onClose (Send expectedCloseCodes packets t) = onClose t ∧
  connCloses (Send expectedCloseCodes packets t) = connCloses t.
Proof.
  revert t. induction packets as [|[p [err|]] rest IH]; intros t Ho; simpl.
  - done.
  - unfold close. by rewrite Ho.
  - exact (IH (mkClientTransport _ _ _ _ _ _ _) Ho).
Qed.

Lemma Run_once reads t :
  once t = true →
  once (Run expectedCloseCodes reads t) = true ∧
  onClose (Run expectedCloseCodes reads t) = onClose t ∧
  connCloses (Run expectedCloseCodes reads t) = connCloses t.
Proof.
  revert t. induction reads as [|[p|err] rest IH]; intros t Ho; simpl.
  - done.
  - exact (IH (mkClientTransport _ _ _ _ _ _ _) Ho).
  - unfold close. by rewrite Ho.
Qed.

Lemma perform_once t c :
  once t = true →
  once (perform expectedCloseCodes t c) = true ∧
  onClose (perform expectedCloseCodes t c) = onClose t ∧
  connCloses (perform expectedCloseCodes t c) = connCloses t.
Proof.
  intros Ho. destruct c; simpl.
  - unfold Close, close. by rewrite Ho.
  - unfold Discard. by rewrite Ho.
  - by apply Send_once.
  - by apply Run_once.
Qed.

Lemma performAll_once calls t :
  once t = true →
  onClose (performAll expectedCloseCodes calls t) = onClose t ∧
  connCloses (performAll expectedCloseCodes calls t) = connCloses t.
Proof.
  unfold performAll. revert t.
  induction calls as [|c calls IH]; intros t Ho; [done|]. simpl.
  destruct (perform_once t c Ho) as (Ho' & <- & <-). by apply IH.
Qed.

Lemma close_first err t :
  once t = false →
  once (close expectedCloseCodes err t) = true ∧
  length (onClose (close expectedCloseCodes err t)) = S (length (onClose t)) ∧
  connCloses (close expectedCloseCodes err t) ≤ S (connCloses t).
Proof.
  intros Ho. unfold close. rewrite Ho. simpl. rewrite length_app. simpl.
  repeat split; [lia|]. destruct (dialed t); lia.
Qed.

Lemma perform_first t c :
  once t = false →
  (once (perform expectedCloseCodes t c) = false ∧
   onClose (perform expectedCloseCodes t c) = onClose t ∧
   connCloses (perform expectedCloseCodes t c) = connCloses t) ∨
  (once (perform expectedCloseCodes t c) = true ∧
   length (onClose (perform expectedCloseCodes t c)) ≤ S (length (onClose t)) ∧
   connCloses (perform expectedCloseCodes t c) ≤ S (connCloses t)).
Proof.
  intros Ho. destruct c as [| |packets|reads]; simpl.
  - right. destruct (close_first None t Ho) as (? & ? & ?).
    unfold Close. repeat split; [done|lia|done].
  - right. unfold Discard. rewrite Ho. simpl.
    repeat split; [lia|]. destruct (dialed t); lia.
  - revert t Ho. induction packets as [|[p [err|]] rest IH]; intros t Ho; simpl.
    + by left.
    + right. destruct (close_first (Some err) t Ho) as (? & ? & ?).
      repeat split; [done|lia|done].
    + exact (IH (mkClientTransport _ _ _ _ _ _ _) Ho).
  - revert t Ho. induction reads as [|[p|err] rest IH]; intros t Ho; simpl.
    + by left.
    + exact (IH (mkClientTransport _ _ _ _ _ _ _) Ho).
    + right. destruct (close_first (Some err) t Ho) as (? & ? & ?).
      repeat split; [done|lia|done].
Qed.

(** X29. The websocket client transport closes once.  The first [close]
    reports its error to [OnClose], or nil when the error is a close frame
    with an expected code; after it, whatever is called, nothing more is
    reported.  After a [Discard] nothing is ever reported.  And over any
    sequence of [Close], [Discard], [Send] and [Run], [OnClose] is called at
    most once and the connection is closed at most once.  [Send] and [Run]
    are for a transport whose connection has been dialed. *)
Theorem ClientTransport_closes_once t calls err :
  once t = false →
  dialed t = true ∨ Forall (λ c, needsConn c = false) calls →
  onClose (close expectedCloseCodes err t) =
    onClose t ++ [if IsCloseError err expectedCloseCodes then None else err] ∧
  onClose (performAll expectedCloseCodes calls (close expectedCloseCodes err t)) =
    onClose (close expectedCloseCodes err t) ∧
  onClose (performAll expectedCloseCodes calls (Discard t)) =
    onClose t ∧
  length (onClose (performAll expectedCloseCodes calls t)) ≤ S (length (onClose t)) ∧
  connCloses (performAll expectedCloseCodes calls t) ≤ S (connCloses t).
Proof.
  intros Ho _. split; [|split; [|split]].
  - unfold close. by rewrite Ho.
  - apply performAll_once. unfold close. by rewrite Ho.
  - assert (once (Discard t) = true ∧
            onClose (Discard t) = onClose t) as [Hd <-]
      by (unfold Discard; by rewrite Ho).
    by apply performAll_once.
  - revert t Ho. unfold performAll.
    induction calls as [|c calls IH]; intros t Ho; simpl; [lia|].
    destruct (perform_first t c Ho) as [(Ho' & <- & <-)|(Ho' & Hl & Hc)].
    + by apply IH.
    + destruct (performAll_once calls _ Ho') as [Hl' Hc'].
      unfold performAll in Hl', Hc'. rewrite Hl', Hc'. done.
Qed.

(** X30. On a dialed transport [Send] encodes the packets in order, a
    binary packet into a binary message and any other into a text message,
    up to the first packet whose writing fails; there it closes the
    transport with that error, and the packets after it are not written.
    Without a failure nothing is closed and nothing reported. *)
Theorem Send_writes_until_failure packets t :
  dialed t = true →
  ∃ n,
    n ≤ length packets ∧
    Forall (λ x, x.2 = None) (take n packets) ∧
    let sent := (λ x, (messageTypeOf x.1, x.1)) <$> take n packets in
    let t' := mkClientTransport (sid t) (dialed t) (once t) (connCloses t)
                (onClose t) (onPacket t) (written t ++ sent) in
    match packets !! n with
    | None => Send expectedCloseCodes packets t = t'
    | Some x =>
        ∃ err, x.2 = Some err ∧
               Send expectedCloseCodes packets t =
               close expectedCloseCodes (Some err) t'
    end.
Proof.
  intros _. revert t. induction packets as [|[p [err|]] rest IH]; intros t.
  - exists 0. repeat split; [done|constructor|]. simpl.
    rewrite app_nil_r. by destruct t.
  - exists 0. repeat split; [simpl; lia|constructor|]. simpl.
    exists err. split; [done|]. rewrite app_nil_r. by destruct t.
  - destruct (IH (mkClientTransport (sid t) (dialed t) (once t) (connCloses t)
                    (onClose t) (onPacket t)
                    (written t ++ [(messageTypeOf p, p)])))
      as (n & Hn & Hall & Hres).
    exists (S n). repeat split; [simpl; lia|by constructor|].
    simpl in *. rewrite <- app_assoc in Hres. exact Hres.
Qed.

End WithCodes.

Import scenario.

(** A batch whose third packet the parser refuses, and a batch with two PING packets. *)
Lemma onEIOPacket_batch_witness :
  sio_conn.onEIOPacket collect
    ([messagePacket; probe] ++ badPacket :: [messagePacket]) [] =
    (collect "bad" (sio_conn.onEIOPacket collect [messagePacket; probe] [])).1 ∧
  sio_conn.onEIOPacket collect
    (filter (λ q, eio.Typ q = eio.PacketTypeMessage)
       [probe; messagePacket; probe; messagePacket]) [] =
    sio_conn.onEIOPacket collect [probe; messagePacket; probe; messagePacket] [].
Proof.
  apply (onEIOPacket_batch (list string) collect
           [probe; messagePacket; probe; messagePacket]
           [messagePacket; probe] [messagePacket] badPacket []).
  - reflexivity.
  - reflexivity.
  - reflexivity.
Defined.

Import websocket.

(** A dialed transport, closed by a close frame with code 1000, and four more calls. *)
Lemma ClientTransport_closes_once_witness :
  let calls := [CallSend writes; CallClose; CallDiscard;
                CallRun [inl probe; inr (CloseError 1006)]] in
  onClose (close closeCodes (Some (CloseError 1000)) dialedTransport) =
    onClose dialedTransport ++ [None] ∧
  onClose (performAll closeCodes calls
             (close closeCodes (Some (CloseError 1000)) dialedTransport)) =
    onClose (close closeCodes (Some (CloseError 1000)) dialedTransport) ∧
  onClose (performAll closeCodes calls (Discard dialedTransport)) =
    onClose dialedTransport ∧
  length (onClose (performAll closeCodes calls dialedTransport)) ≤
    S (length (onClose dialedTransport)) ∧
  connCloses (performAll closeCodes calls dialedTransport) ≤
    S (connCloses dialedTransport).
Proof.
  apply (ClientTransport_closes_once closeCodes dialedTransport
           [CallSend writes; CallClose; CallDiscard;
            CallRun [inl probe; inr (CloseError 1006)]]
           (Some (CloseError 1000))).
  - reflexivity.
  - left. reflexivity.
Defined.

(** Four packets, the third of which cannot be written. *)
Lemma Send_writes_until_failure_witness :
  ∃ n,
    n ≤ length writes ∧
    Forall (λ x, x.2 = None) (take n writes) ∧
    let sent := (λ x, (messageTypeOf x.1, x.1)) <$> take n writes in
    let t' := mkClientTransport "sid-1" true false 0 [] [] ([] ++ sent) in
    match writes !! n with
    | None => Send closeCodes writes dialedTransport = t'
    | Some x =>
        ∃ err, x.2 = Some err ∧
               Send closeCodes writes dialedTransport =
               close closeCodes (Some err) t'
    end.
Proof.
  apply (Send_writes_until_failure closeCodes writes dialedTransport).
  reflexivity.
Defined.

End transport_laws.
